(** * ContentSync dashboard ([app.js]): a shallow embedding

    The program is a browser script.  Its state is the global [mockData]
    object, the two variables [currentTheme] and [currentSection], and the
    parts of the document its functions write.  Every JavaScript function
    of the script becomes a computation in a state-and-exception monad over
    that state; object fields keep their JavaScript names. *)

From Stdlib Require Import ZArith QArith Qround Lia Ascii.
From stdpp Require Import base list strings pretty.

Open Scope Z_scope.
Open Scope string_scope.

(** ** The data of [mockData] *)

Module Service.
Record t := mk { name : string; status : string; lastRun : string; success : Z }.
End Service.

Module Source.
Record t := mk {
  id : Z; name : string; type : string; url : string;
  status : string; articles : Z }.

(** [source.status = v], every other field untouched. *)
Definition set_status (v : string) (s : t) : t :=
  mk (id s) (name s) (type s) (url s) v (articles s).
End Source.

Module Activity.
Record t := mk { time : string; action : string; type : string }.
End Activity.

Module ContentItem.
Record t := mk {
  id : Z; title : string; source : string; status : string;
  scrapedAt : string; platforms : list string; summary : string }.
End ContentItem.

Module Platform.
Record t := mk { name : string; status : string; posts : Z; engagement : string }.
End Platform.

Record SystemStatus := { overall : string; services : list Service.t }.

Record Metrics := {
  articlesProcessed : Z; platformsPublished : Z;
  monthlyRevenue : Z; subscriberGrowth : Q }.

Record Subscriptions := { basic : Z; pro : Z; enterprise : Z }.

Record Monetization := {
  subscriptions : Subscriptions; affiliateRevenue : Z;
  sponsoredPosts : Z; totalRevenue : Z }.

Record MockData := {
  systemStatus : SystemStatus;
  contentSources : list Source.t;
  recentActivity : list Activity.t;
  metrics : Metrics;
  contentLibrary : list ContentItem.t;
  distributionPlatforms : list Platform.t;
  monetization : Monetization }.

(** The object literal at the top of the script. *)
Definition mockData0 : MockData := {|
  systemStatus := {|
    overall := "running";
    services := [
      Service.mk "Content Scraper" "running" "2025-06-02T14:30:00Z" 95;
      Service.mk "AI Processor" "running" "2025-06-02T14:25:00Z" 98;
      Service.mk "Distributor" "warning" "2025-06-02T14:20:00Z" 87;
      Service.mk "Monitoring" "running" "2025-06-02T14:35:00Z" 100 ] |};
  contentSources := [
    Source.mk 1 "FDA Medical Device Updates" "RSS"
      "https://fda.gov/feeds/medical-devices.xml" "active" 42;
    Source.mk 2 "Maritime Hydrogen News" "HTML"
      "https://maritime-executive.com/hydrogen" "active" 18;
    Source.mk 3 "Neurotech Patents" "API"
      "https://patents.uspto.gov/api/neurotech" "paused" 7 ];
  recentActivity := [
    Activity.mk "14:30" "Scraped 5 new articles from FDA Medical Device Updates" "success";
    Activity.mk "14:25" "AI processed 3 articles, enhanced content generated" "info";
    Activity.mk "14:20" "Published to LinkedIn - 'New FDA Approval for Dental Implants'" "success";
    Activity.mk "14:15" "Twitter rate limit exceeded, retrying in 15 minutes" "warning";
    Activity.mk "14:10" "Generated affiliate links for 2 SaaS recommendations" "info" ];
  metrics := {|
    articlesProcessed := 1847; platformsPublished := 4;
    monthlyRevenue := 2340; subscriberGrowth := (157 # 10)%Q |};
  contentLibrary := [
    ContentItem.mk 1 "Revolutionary 3D Printed Prosthetic Receives FDA Approval"
      "FDA Medical Device Updates" "enhanced" "2025-06-02T14:30:00Z"
      ["LinkedIn"; "Twitter"]
      "The FDA has approved a breakthrough 3D printed prosthetic device that offers improved mobility and reduced cost...";
    ContentItem.mk 2 "Hydrogen Fuel Cells Powering New Maritime Vessels"
      "Maritime Hydrogen News" "processing" "2025-06-02T14:25:00Z"
      []
      "A new generation of hydrogen-powered vessels is revolutionizing maritime transportation..." ];
  distributionPlatforms := [
    Platform.mk "LinkedIn" "connected" 89 "4.2%";
    Platform.mk "Twitter" "rate_limited" 156 "2.8%";
    Platform.mk "Medium" "connected" 23 "6.1%";
    Platform.mk "Substack" "disconnected" 0 "0%" ];
  monetization := {|
    subscriptions := {| basic := 67; pro := 23; enterprise := 4 |};
    affiliateRevenue := 1580;
    sponsoredPosts := 3;
    totalRevenue := 2340 |}
|}.

(** ** The document

    What a function writes into an element with a template literal is kept
    as the list of interpolated values, one record per rendered block, in
    the order of the template.  [Date] formatting depends on the locale of
    the browser; a rendered date keeps the timestamp it was made from. *)

Record ServiceRow := {
  service_name : string; service_lastRun : string; service_success : Z;
  service_statusClass : string; service_status : string }.

Record ActivityRow := {
  activity_class : string; activity_time : string; activity_text : string }.

Record SourceRow := {
  row_name : string; row_type : string; row_statusClass : string;
  row_status : string; row_articles : Z;
  row_editSource : Z; row_toggleSource : Z; row_toggleLabel : string }.

Record ContentCard := {
  content_title : string; content_source : string; content_date : string;
  content_statusClass : string; content_status : string;
  content_summary : string; content_platforms : list string;
  content_notPublished : bool; content_display : string }.

Record PlatformCard := {
  platform_icon : string; platform_name : string; platform_posts : Z;
  platform_engagement : string; platform_statusClass : string;
  platform_status : string }.

Record LogRow := { log_timestamp : string; log_level : string;
  log_levelText : string; log_message : string }.

Record ChartConfig := {
  chart_type : string; chart_labels : list string; chart_data : list Z;
  chart_backgroundColor : list string; chart_borderWidth : Z }.

Record Notification := {
  notification_className : string; notification_background : string;
  notification_textContent : string }.

Module Dom.
(** [innerHTML] (or class and text) of the elements the script fills. *)
Record Views := {
  serviceList : list ServiceRow;
  activityFeed : list ActivityRow;
  systemStatus : string * string;
  sourcesTable : list SourceRow;
  contentLibrary : list ContentCard;
  platformsGrid : list PlatformCard;
  scrapingLogs : list LogRow;
  subscriptionStats : list (string * Z) }.

(** Classes, attributes and styles: [ids] are the ids of the elements of
    the document, [sections] those of class [content-section],
    [navLinks] the [data-section] values of the navigation links;
    [activeIds] and [activeNavLinks] carry the class [active]. *)
Record Chrome := {
  ids : list string; sections : list string; navLinks : list string;
  activeIds : list string; activeNavLinks : list string;
  colorScheme : option string; themeIcon : option string;
  bodyOverflow : string }.

(** Calls that leave the script: charts constructed, notification
    elements appended to the body, alerts shown (newest last). *)
Record Effects := {
  charts : list ChartConfig;
  notifications : list Notification;
  alerts : list string }.

Record t := { views : Views; chrome : Chrome; effects : Effects }.

Definition with_views (f : Views -> Views) (d : t) : t :=
  {| views := f (views d); chrome := chrome d; effects := effects d |}.
Definition with_chrome (f : Chrome -> Chrome) (d : t) : t :=
  {| views := views d; chrome := f (chrome d); effects := effects d |}.
Definition with_effects (f : Effects -> Effects) (d : t) : t :=
  {| views := views d; chrome := chrome d; effects := f (effects d) |}.

Definition set_serviceList v (w : Views) : Views :=
  Build_Views v (activityFeed w) (systemStatus w) (sourcesTable w)
    (contentLibrary w) (platformsGrid w) (scrapingLogs w) (subscriptionStats w).
Definition set_activityFeed v (w : Views) : Views :=
  Build_Views (serviceList w) v (systemStatus w) (sourcesTable w)
    (contentLibrary w) (platformsGrid w) (scrapingLogs w) (subscriptionStats w).
Definition set_systemStatus v (w : Views) : Views :=
  Build_Views (serviceList w) (activityFeed w) v (sourcesTable w)
    (contentLibrary w) (platformsGrid w) (scrapingLogs w) (subscriptionStats w).
Definition set_sourcesTable v (w : Views) : Views :=
  Build_Views (serviceList w) (activityFeed w) (systemStatus w) v
    (contentLibrary w) (platformsGrid w) (scrapingLogs w) (subscriptionStats w).
Definition set_contentLibrary v (w : Views) : Views :=
  Build_Views (serviceList w) (activityFeed w) (systemStatus w) (sourcesTable w)
    v (platformsGrid w) (scrapingLogs w) (subscriptionStats w).
Definition set_platformsGrid v (w : Views) : Views :=
  Build_Views (serviceList w) (activityFeed w) (systemStatus w) (sourcesTable w)
    (contentLibrary w) v (scrapingLogs w) (subscriptionStats w).
Definition set_scrapingLogs v (w : Views) : Views :=
  Build_Views (serviceList w) (activityFeed w) (systemStatus w) (sourcesTable w)
    (contentLibrary w) (platformsGrid w) v (subscriptionStats w).
Definition set_subscriptionStats v (w : Views) : Views :=
  Build_Views (serviceList w) (activityFeed w) (systemStatus w) (sourcesTable w)
    (contentLibrary w) (platformsGrid w) (scrapingLogs w) v.

Definition set_active (a l : list string) (c : Chrome) : Chrome :=
  Build_Chrome (ids c) (sections c) (navLinks c) a l
    (colorScheme c) (themeIcon c) (bodyOverflow c).
Definition set_colorScheme v (c : Chrome) : Chrome :=
  Build_Chrome (ids c) (sections c) (navLinks c) (activeIds c)
    (activeNavLinks c) (Some v) (themeIcon c) (bodyOverflow c).
Definition set_themeIcon v (c : Chrome) : Chrome :=
  Build_Chrome (ids c) (sections c) (navLinks c) (activeIds c)
    (activeNavLinks c) (colorScheme c) (Some v) (bodyOverflow c).
Definition set_bodyOverflow v (c : Chrome) : Chrome :=
  Build_Chrome (ids c) (sections c) (navLinks c) (activeIds c)
    (activeNavLinks c) (colorScheme c) (themeIcon c) v.

Definition add_chart v (e : Effects) : Effects :=
  Build_Effects (charts e ++ [v]) (notifications e) (alerts e).
Definition add_notification v (e : Effects) : Effects :=
  Build_Effects (charts e) (notifications e ++ [v]) (alerts e).
Definition add_alert v (e : Effects) : Effects :=
  Build_Effects (charts e) (notifications e) (alerts e ++ [v]).
End Dom.

(** The page as [index.html] ships it: every container is empty. *)
Definition document0 : Dom.t := {|
  Dom.views := {|
    Dom.serviceList := []; Dom.activityFeed := [];
    Dom.systemStatus := ("status status--success", "System Running");
    Dom.sourcesTable := []; Dom.contentLibrary := [];
    Dom.platformsGrid := []; Dom.scrapingLogs := [];
    Dom.subscriptionStats := [] |};
  Dom.chrome := {|
    Dom.ids := [ "themeToggle"; "dashboard"; "systemStatus"; "serviceList";
      "activityFeed"; "sources"; "sourcesTable"; "scraping"; "scrapingLogs";
      "library"; "contentSearch"; "statusFilter"; "contentLibrary";
      "distribution"; "platformsGrid"; "monetization"; "revenueChart";
      "subscriptionStats"; "deployment"; "compliance";
      "addSourceModal"; "addPlatformModal" ];
    Dom.sections := [ "dashboard"; "sources"; "scraping"; "library";
      "distribution"; "monetization"; "deployment"; "compliance" ];
    Dom.navLinks := [ "dashboard"; "sources"; "scraping"; "library";
      "distribution"; "monetization"; "deployment"; "compliance" ];
    Dom.activeIds := [ "dashboard" ];
    Dom.activeNavLinks := [ "dashboard" ];
    Dom.colorScheme := None;
    Dom.themeIcon := Some "🌙";
    Dom.bodyOverflow := "" |};
  Dom.effects := {| Dom.charts := []; Dom.notifications := []; Dom.alerts := [] |}
|}.

(** ** Program state and the monad of script functions *)

Record AppState := {
  mockData : MockData;
  currentTheme : string;
  currentSection : string;
  document : Dom.t }.

Definition initialState : AppState := {|
  mockData := mockData0;
  currentTheme := "light";
  currentSection := "dashboard";
  document := document0 |}.

Definition with_mockData (f : MockData -> MockData) (st : AppState) : AppState :=
  {| mockData := f (mockData st); currentTheme := currentTheme st;
     currentSection := currentSection st; document := document st |}.
Definition with_document (f : Dom.t -> Dom.t) (st : AppState) : AppState :=
  {| mockData := mockData st; currentTheme := currentTheme st;
     currentSection := currentSection st; document := f (document st) |}.
Definition set_currentTheme (v : string) (st : AppState) : AppState :=
  {| mockData := mockData st; currentTheme := v;
     currentSection := currentSection st; document := document st |}.
Definition set_currentSection (v : string) (st : AppState) : AppState :=
  {| mockData := mockData st; currentTheme := currentTheme st;
     currentSection := v; document := document st |}.

Definition set_contentSources (v : list Source.t) (m : MockData) : MockData :=
  {| systemStatus := systemStatus m; contentSources := v;
     recentActivity := recentActivity m; metrics := metrics m;
     contentLibrary := contentLibrary m;
     distributionPlatforms := distributionPlatforms m;
     monetization := monetization m |}.
Definition set_recentActivity (v : list Activity.t) (m : MockData) : MockData :=
  {| systemStatus := systemStatus m; contentSources := contentSources m;
     recentActivity := v; metrics := metrics m;
     contentLibrary := contentLibrary m;
     distributionPlatforms := distributionPlatforms m;
     monetization := monetization m |}.

(** A call either returns a value or throws; the state reached so far is
    kept in both cases, as assignments made before a [throw] persist. *)
Inductive Res (A : Type) : Type :=
  | Val (a : A) (st : AppState)
  | Exn (e : string) (st : AppState).
Arguments Val {A} a st.
Arguments Exn {A} e st.

Definition M (A : Type) : Type := AppState -> Res A.

#[global] Instance M_ret : MRet M := fun A a st => Val a st.
#[global] Instance M_bind : MBind M := fun A B f m st =>
  match m st with
  | Val a st' => f a st'
  | Exn e st' => Exn e st'
  end.

Definition get : M AppState := fun st => Val st st.
Definition modify (f : AppState -> AppState) : M unit := fun st => Val tt (f st).
Definition throw {A} (e : string) : M A := fun st => Exn e st.

(** The state a call leaves behind, returned or thrown. *)
Definition exec {A} (m : M A) (st : AppState) : AppState :=
  match m st with Val _ st' => st' | Exn _ st' => st' end.

Definition returns {A} (m : M A) (st : AppState) : Prop :=
  exists a st', m st = Val a st'.

Definition fails_with {A} (e : string) (m : M A) (st : AppState) : Prop :=
  exists st', m st = Exn e st'.

(** [document.getElementById(i)]: is there such an element. *)
Definition getElementById (i : string) : M bool :=
  st ← get; mret (bool_decide (i ∈ Dom.ids (Dom.chrome (document st)))).

(** [document.getElementById(i).innerHTML = ...], and likewise for
    [className] and [textContent]: assigning to a property of [null]
    throws a [TypeError]. *)
Definition assignElement (i : string) (f : Dom.Views -> Dom.Views) : M unit :=
  el ← getElementById i;
  if el : bool then modify (with_document (Dom.with_views f))
  else throw "TypeError".

(** ** Rendering functions *)

Definition statusClass3 (s a b : string) (ca cb cc : string) : string :=
  if decide (s = a) then ca else if decide (s = b) then cb else cc.

Definition renderService (service : Service.t) : ServiceRow := {|
  service_name := Service.name service;
  service_lastRun := Service.lastRun service;
  service_success := Service.success service;
  service_statusClass :=
    statusClass3 (Service.status service) "running" "warning"
      "success" "warning" "error";
  service_status := Service.status service |}.

Definition loadServiceStatus : M unit :=
  st ← get;
  let services := services (systemStatus (mockData st)) in
  assignElement "serviceList" (Dom.set_serviceList (map renderService services)).

Definition renderActivity (activity : Activity.t) : ActivityRow := {|
  activity_class := Activity.type activity;
  activity_time := Activity.time activity;
  activity_text := Activity.action activity |}.

Definition loadRecentActivity : M unit :=
  st ← get;
  let activities := recentActivity (mockData st) in
  assignElement "activityFeed" (Dom.set_activityFeed (map renderActivity activities)).

Definition updateSystemStatus : M unit :=
  st ← get;
  let status := overall (systemStatus (mockData st)) in
  let statusClass := statusClass3 status "running" "warning" "success" "warning" "error" in
  assignElement "systemStatus" (Dom.set_systemStatus
    ("status status--" +:+ statusClass,
     statusClass3 status "running" "warning"
       "System Running" "System Warning" "System Error")).

Definition loadDashboardData : M unit :=
  loadServiceStatus;; loadRecentActivity;; updateSystemStatus.

Definition renderSource (source : Source.t) : SourceRow := {|
  row_name := Source.name source;
  row_type := Source.type source;
  row_statusClass :=
    statusClass3 (Source.status source) "active" "paused"
      "success" "warning" "error";
  row_status := Source.status source;
  row_articles := Source.articles source;
  row_editSource := Source.id source;
  row_toggleSource := Source.id source;
  row_toggleLabel :=
    if decide (Source.status source = "active") then "Pause" else "Resume" |}.

Definition loadContentSources : M unit :=
  st ← get;
  let sources := contentSources (mockData st) in
  assignElement "sourcesTable" (Dom.set_sourcesTable (map renderSource sources)).

Definition renderContent (item : ContentItem.t) : ContentCard := {|
  content_title := ContentItem.title item;
  content_source := ContentItem.source item;
  content_date := ContentItem.scrapedAt item;
  content_statusClass :=
    statusClass3 (ContentItem.status item) "enhanced" "processing"
      "success" "warning" "info";
  content_status := ContentItem.status item;
  content_summary := ContentItem.summary item;
  content_platforms := ContentItem.platforms item;
  content_notPublished := bool_decide (length (ContentItem.platforms item) = 0%nat);
  content_display := "" |}.

Definition loadContentLibrary : M unit :=
  st ← get;
  let content := contentLibrary (mockData st) in
  assignElement "contentLibrary" (Dom.set_contentLibrary (map renderContent content)).

Definition platformIcons : list (string * string) :=
  [ ("LinkedIn", "💼"); ("Twitter", "🐦"); ("Medium", "📝"); ("Substack", "📧") ].

Fixpoint lookup_icon (k : string) (l : list (string * string)) : option string :=
  match l with
  | [] => None
  | (k', v) :: l' => if decide (k = k') then Some v else lookup_icon k l'
  end.

(** [s.replace('_', ' ')]: only the first underscore is replaced. *)
Fixpoint replace_underscore (s : string) : string :=
  match s with
  | EmptyString => EmptyString
  | String c s' =>
      if decide (c = "_"%char) then String " "%char s'
      else String c (replace_underscore s')
  end.

Definition renderPlatform (platform : Platform.t) : PlatformCard := {|
  platform_icon := default "📱" (lookup_icon (Platform.name platform) platformIcons);
  platform_name := Platform.name platform;
  platform_posts := Platform.posts platform;
  platform_engagement := Platform.engagement platform;
  platform_statusClass :=
    statusClass3 (Platform.status platform) "connected" "rate_limited"
      "success" "warning" "error";
  platform_status := replace_underscore (Platform.status platform) |}.

Definition loadDistributionPlatforms : M unit :=
  st ← get;
  let platforms := distributionPlatforms (mockData st) in
  assignElement "platformsGrid" (Dom.set_platformsGrid (map renderPlatform platforms)).

(** ASCII letters only, which is all the script's own strings contain. *)
Definition upper_ascii (c : ascii) : ascii :=
  let n := nat_of_ascii c in
  if (97 <=? n)%nat && (n <=? 122)%nat then ascii_of_nat (n - 32) else c.
Definition lower_ascii (c : ascii) : ascii :=
  let n := nat_of_ascii c in
  if (65 <=? n)%nat && (n <=? 90)%nat then ascii_of_nat (n + 32) else c.

Fixpoint string_map (f : ascii -> ascii) (s : string) : string :=
  match s with
  | EmptyString => EmptyString
  | String c s' => String (f c) (string_map f s')
  end.
Definition toUpperCase : string -> string := string_map upper_ascii.
Definition toLowerCase : string -> string := string_map lower_ascii.

(** [s.includes(t)] *)
Definition includes (s t : string) : bool :=
  match String.index 0 t s with Some _ => true | None => false end.

(** The double-quote character, for the one literal that contains it. *)
Definition dquote : string := String "034"%char EmptyString.

Definition sampleLogs : list (string * string * string) := [
  ("14:35:42", "info", "Starting scheduled scraping job...");
  ("14:35:45", "success", "Connected to FDA Medical Device Updates RSS feed");
  ("14:35:47", "info", "Found 5 new articles to process");
  ("14:35:50", "success",
   "Article 1/5: " +:+ dquote +:+ "Revolutionary 3D Printed Prosthetic"
     +:+ dquote +:+ " processed");
  ("14:35:52", "success", "AI enhancement completed for article 1/5");
  ("14:35:55", "warning", "Rate limit approaching for Twitter API");
  ("14:35:58", "info", "Scraping job completed successfully") ].

Definition renderLog (log : string * string * string) : LogRow :=
  let '(timestamp, level, message) := log in {|
  log_timestamp := timestamp; log_level := level;
  log_levelText := toUpperCase level; log_message := message |}.

Definition loadScrapingLogs : M unit :=
  assignElement "scrapingLogs" (Dom.set_scrapingLogs (map renderLog sampleLogs)).

(** ** Monetization *)

(** The three tiers rendered by [loadSubscriptionStats]. *)
Definition subscriptionRows (subs : Subscriptions) : list (string * Z) :=
  [ ("Basic Plan", basic subs); ("Pro Plan", pro subs);
    ("Enterprise Plan", enterprise subs) ].

Definition loadSubscriptionStats : M unit :=
  st ← get;
  let subs := subscriptions (monetization (mockData st)) in
  assignElement "subscriptionStats"
    (Dom.set_subscriptionStats (subscriptionRows subs)).

(** JavaScript numbers are binary64 doubles.  On integers the result of
    [+], [-] and [*] is the exact result rounded to 53 significant bits,
    ties to the even significand: integers up to 2^53 in magnitude are
    kept, larger ones move to the nearest multiple of the power of two
    that leaves 53 bits.  Magnitudes from 2^1024 on, where a double
    overflows, are outside this model. *)
Definition round64 (n : Z) : Z :=
  (let m := Z.abs n in
   if m <? 2 ^ 53 then n
   else
     let ulp := 2 ^ (Z.log2 m - 52) in
     let q := m / ulp in
     let r := m mod ulp in
     let q' := if 2 * r <? ulp then q
               else if ulp <? 2 * r then q + 1
               else if Z.even q then q else q + 1 in
     Z.sgn n * (q' * ulp))%Z.

Definition js_sub (a b : Z) : Z := round64 (a - b)%Z.
Definition js_mul (a b : Z) : Z := round64 (a * b)%Z.

(** The [data] array handed to the chart: affiliate revenue, the
    subscription share derived from the total, and sponsored posts at 500
    each.  The three fields are number literals, read as the doubles
    nearest to them. *)
Definition revenueBreakdown (m : Monetization) : list Z :=
  let affiliateRevenue := round64 (affiliateRevenue m) in
  let totalRevenue := round64 (totalRevenue m) in
  let sponsoredPosts := round64 (sponsoredPosts m) in
  [ affiliateRevenue;
    js_sub (js_sub totalRevenue affiliateRevenue) (js_mul sponsoredPosts 500);
    js_mul sponsoredPosts 500 ].

Definition revenueChart (m : Monetization) : ChartConfig := {|
  chart_type := "doughnut";
  chart_labels := ["Affiliate Revenue"; "Subscriptions"; "Sponsored Posts"];
  chart_data := revenueBreakdown m;
  chart_backgroundColor := ["#1FB8CD"; "#FFC185"; "#B4413C"];
  chart_borderWidth := 0 |}.

Definition initializeMonetizationChart : M unit :=
  ctx ← getElementById "revenueChart";
  if negb ctx then mret tt
  else
    st ← get;
    modify (with_document (Dom.with_effects
      (Dom.add_chart (revenueChart (monetization (mockData st))))));;
    loadSubscriptionStats.

(** ** Navigation, theme and modals *)

Definition initializeNavigation : M unit := mret tt.

(** [classList.add('active')] on the element with id [i]. *)
Definition add_active (i : string) (l : list string) : list string :=
  if bool_decide (i ∈ l) then l else l ++ [i].

(** For an id that leaves the attribute selector of the link well formed.
    (A quote or a backslash in the id can make [querySelector] throw,
    after the classes of the sections and links are set and before
    [currentSection] is assigned.) *)
Definition navigateToSection (sectionId : string) : M unit :=
  modify (with_document (Dom.with_chrome (fun c =>
    let cleared := filter (fun i => i ∉ Dom.sections c) (Dom.activeIds c) in
    Dom.set_active
      (if bool_decide (sectionId ∈ Dom.ids c) then add_active sectionId cleared
       else cleared)
      (if bool_decide (sectionId ∈ Dom.navLinks c) then [sectionId] else [])
      c)));;
  modify (set_currentSection sectionId).

Definition updateThemeIcon : M unit :=
  st ← get;
  match Dom.themeIcon (Dom.chrome (document st)) with
  | None => throw "TypeError"
  | Some _ =>
      modify (with_document (Dom.with_chrome (Dom.set_themeIcon
        (if decide (currentTheme st = "light") then "🌙" else "☀️"))))
  end.

(** [addEventListener] on a missing [themeToggle] throws. *)
Definition initializeThemeToggle : M unit :=
  themeToggle ← getElementById "themeToggle";
  if themeToggle : bool then mret tt else throw "TypeError".

(** The click listener installed by [initializeThemeToggle]. *)
Definition themeToggleClick : M unit :=
  st ← get;
  let theme := if decide (currentTheme st = "light") then "dark" else "light" in
  modify (set_currentTheme theme);;
  modify (with_document (Dom.with_chrome (Dom.set_colorScheme theme)));;
  updateThemeIcon.

Definition openModal (modalId : string) : M unit :=
  modal ← getElementById modalId;
  if modal : bool then
    modify (with_document (Dom.with_chrome (fun c =>
      Dom.set_bodyOverflow "hidden"
        (Dom.set_active (add_active modalId (Dom.activeIds c))
           (Dom.activeNavLinks c) c))))
  else mret tt.

Definition closeModal (modalId : string) : M unit :=
  modal ← getElementById modalId;
  if modal : bool then
    modify (with_document (Dom.with_chrome (fun c =>
      Dom.set_bodyOverflow ""
        (Dom.set_active (filter (fun i => i ≠ modalId) (Dom.activeIds c))
           (Dom.activeNavLinks c) c))))
  else mret tt.

(** ** Notifications, sources, scraping *)

(** The element is appended to the body at once; the timers that slide it
    in and remove it three seconds later are not part of the state. *)
Definition showNotification (message type : string) : M unit :=
  modify (with_document (Dom.with_effects (Dom.add_notification {|
    notification_className := "notification notification--" +:+ type;
    notification_background :=
      "var(--color-" +:+ statusClass3 type "success" "error"
         "success" "error" "info" +:+ ")";
    notification_textContent := message |}))).

Definition editSource (sourceId : Z) : M unit :=
  modify (with_document (Dom.with_effects (Dom.add_alert
    ("Edit source " +:+ pretty sourceId
       +:+ " - This would open an edit modal in a real application")))).

(** [find] returns the first source with the id; the assignment changes
    that object, which sits at the same index of the array. *)
Definition toggleSource (sourceId : Z) : M unit :=
  st ← get;
  match list_find (fun s => Source.id s = sourceId) (contentSources (mockData st)) with
  | Some (i, source) =>
      modify (with_mockData (fun m => set_contentSources
        (<[ i := Source.set_status
                   (if decide (Source.status source = "active")
                    then "paused" else "active") source ]>
           (contentSources m)) m));;
      loadContentSources
  | None => mret tt
  end.

Definition refreshScrapingLogs : M unit :=
  loadScrapingLogs;; showNotification "Logs refreshed" "info".

Definition startScraping : M unit :=
  showNotification "Scraping job started" "success".

(** ** Content filter

    [searchValue] and [filterValue] are the values of the two inputs;
    every rendered card is shown or hidden. *)
Definition filterContent (searchValue filterValue : string) : M unit :=
  let searchTerm := toLowerCase searchValue in
  let statusFilter := filterValue in
  modify (with_document (Dom.with_views (fun w =>
    Dom.set_contentLibrary
      (map (fun item =>
         let title := toLowerCase (content_title item) in
         let summary := toLowerCase (content_summary item) in
         let status := toLowerCase (content_status item) in
         let matchesSearch := includes title searchTerm || includes summary searchTerm in
         let matchesStatus :=
           bool_decide (statusFilter = "") || includes status (toLowerCase statusFilter) in
         {| content_title := content_title item;
            content_source := content_source item;
            content_date := content_date item;
            content_statusClass := content_statusClass item;
            content_status := content_status item;
            content_summary := content_summary item;
            content_platforms := content_platforms item;
            content_notPublished := content_notPublished item;
            content_display :=
              if matchesSearch && matchesStatus then "block" else "none" |})
         (Dom.contentLibrary w)) w))).

(** ** The activity feed

    [Math.random()] and the clock are inputs: [r1], [r2], [r3] are the
    three draws in the order the function makes them (the third is made
    only when the second is at most 0.7), [currentTime] the formatted time.
    A draw is a double in the interval from 0 to 1, 1 excluded, written
    as the rational [m # 2^k] of its significand [m], below 2^53, over a
    power of two.  Comparing such a draw with 0.7 or 0.5 as doubles is
    comparing it with 7/10 or 5/10 as rationals. *)
Definition activities : list string := [
  "New article scraped from Maritime Hydrogen News";
  "AI content enhancement completed";
  "Published to LinkedIn successfully";
  "Affiliate link generated for SaaS tool";
  "Twitter post scheduled for publication" ].

(** [Math.floor(r * n)] for a draw [r] and a small integer [n]: the
    product of the two doubles is the exact product rounded to 53
    significant bits, and the floor is taken of the rounded product. *)
Definition floor_of_product (r : Q) (n : Z) : Z :=
  (round64 (Qnum r * n) / Zpos (Qden r))%Z.

Definition newActivity (r1 r2 r3 : Q) (currentTime : string) : Activity.t :=
  let randomActivity :=
    nth (Z.to_nat (floor_of_product r1 (Z.of_nat (length activities))))
        activities "undefined" in
  {| Activity.time := currentTime;
     Activity.action := randomActivity;
     Activity.type :=
       if Qlt_le_dec (7 # 10) r2 then "warning"
       else if Qlt_le_dec (5 # 10) r3 then "info" else "success" |}.

Definition updateRecentActivity (r1 r2 r3 : Q) (currentTime : string) : M unit :=
  (* mockData.recentActivity.unshift(newActivity) *)
  modify (with_mockData (fun m =>
    set_recentActivity (newActivity r1 r2 r3 currentTime :: recentActivity m) m));;
  (* mockData.recentActivity = mockData.recentActivity.slice(0, 5) *)
  modify (with_mockData (fun m =>
    set_recentActivity (take 5 (recentActivity m)) m));;
  loadRecentActivity.

(** One firing of the interval timer of [startAutoRefresh]. *)
Definition autoRefreshTick (r1 r2 r3 : Q) (currentTime : string) : M unit :=
  st ← get;
  if decide (currentSection st = "dashboard")
  then updateRecentActivity r1 r2 r3 currentTime
  else mret tt.

(** The first [DOMContentLoaded] listener; [prefersDark] is the answer of
    [matchMedia].  The other two listeners only install handlers and the
    timer. *)
Definition onDOMContentLoaded (prefersDark : bool) : M unit :=
  initializeNavigation;;
  initializeThemeToggle;;
  loadDashboardData;;
  loadContentSources;;
  loadContentLibrary;;
  loadDistributionPlatforms;;
  loadScrapingLogs;;
  initializeMonetizationChart;;
  if prefersDark then
    modify (set_currentTheme "dark");;
    modify (with_document (Dom.with_chrome (Dom.set_colorScheme "dark")));;
    updateThemeIcon
  else mret tt.

(** ** Runs of the page

    Everything that can happen to the page: the load event, the clicks and
    inputs the markup wires to a function, and the timer.  A click on the
    backdrop of a modal calls [closeModal] with the id of the modal and is
    the action [CloseModal]. *)
Inductive Action :=
  | PageLoad (prefersDark : bool)
  | ClickNav (sectionId : string)
  | ClickThemeToggle
  | OpenModal (modalId : string)
  | CloseModal (modalId : string)
  | EditSource (sourceId : Z)
  | ToggleSource (sourceId : Z)
  | RefreshScrapingLogs
  | StartScraping
  | FilterContent (searchValue filterValue : string)
  | AutoRefresh (r1 r2 r3 : Q) (currentTime : string).

Definition perform (a : Action) : M unit :=
  match a with
  | PageLoad prefersDark => onDOMContentLoaded prefersDark
  | ClickNav sectionId => navigateToSection sectionId
  | ClickThemeToggle => themeToggleClick
  | OpenModal modalId => openModal modalId
  | CloseModal modalId => closeModal modalId
  | EditSource sourceId => editSource sourceId
  | ToggleSource sourceId => toggleSource sourceId
  | RefreshScrapingLogs => refreshScrapingLogs
  | StartScraping => startScraping
  | FilterContent searchValue filterValue => filterContent searchValue filterValue
  | AutoRefresh r1 r2 r3 currentTime => autoRefreshTick r1 r2 r3 currentTime
  end.

Definition step (a : Action) (st : AppState) : AppState := exec (perform a) st.

(** The states the page goes through, oldest first, the start included. *)
Fixpoint trace (acts : list Action) (st : AppState) : list AppState :=
  match acts with
  | [] => [st]
  | a :: acts' => st :: trace acts' (step a st)
  end.

(** ** Observations on states and runs *)

Definition sources (st : AppState) : list Source.t := contentSources (mockData st).
Definition feed (st : AppState) : list Activity.t := recentActivity (mockData st).
Definition library (st : AppState) : list ContentItem.t := contentLibrary (mockData st).
Definition platforms (st : AppState) : list Platform.t :=
  distributionPlatforms (mockData st).

(** The status [toggleSource] writes: [active] becomes [paused], anything
    else becomes [active]. *)
Definition toggled (s : Source.t) : Source.t :=
  Source.set_status
    (if decide (Source.status s = "active") then "paused" else "active") s.

(** What identifies a source and what it has produced: every field but
    the status. *)
Definition fixed_fields (s : Source.t) : Z * string * string * string * Z :=
  (Source.id s, Source.name s, Source.type s, Source.url s, Source.articles s).

(** One call of the updater with its three draws and the clock. *)
Definition Draw : Type := Q * Q * Q * string.

Definition eventOf (d : Draw) : Activity.t :=
  let '(r1, r2, r3, currentTime) := d in newActivity r1 r2 r3 currentTime.

Definition record (d : Draw) : M unit :=
  let '(r1, r2, r3, currentTime) := d in updateRecentActivity r1 r2 r3 currentTime.

(** The calls of [ds] one after the other, first to last. *)
Definition records (ds : list Draw) (st : AppState) : AppState :=
  foldl (fun s d => exec (record d) s) st ds.

(** Everything a call could use to report on the feed: the state without
    the activity list and without its rendering. *)
Definition outside_feed (st : AppState) :=
  (set_recentActivity [] (mockData st), currentTheme st, currentSection st,
   Dom.set_activityFeed [] (Dom.views (document st)),
   Dom.chrome (document st), Dom.effects (document st)).

Definition charts (st : AppState) : list ChartConfig :=
  Dom.charts (Dom.effects (document st)).

(** The charts a call constructs: those added to the ones already there. *)
Definition chartsDrawn (m : M unit) (st : AppState) : list ChartConfig :=
  drop (length (charts st)) (charts (exec m st)).

Definition hasElement (i : string) (st : AppState) : bool :=
  bool_decide (i ∈ Dom.ids (Dom.chrome (document st))).

Definition sum_list (l : list Z) : Z := foldr Z.add 0 l.

Definition notifications (st : AppState) : list Notification :=
  Dom.notifications (Dom.effects (document st)).

(** The steps of a run: the state before and the state after each action. *)
Fixpoint transitions (acts : list Action) (st : AppState) : list (AppState * AppState) :=
  match acts with
  | [] => []
  | a :: acts' => (st, step a st) :: transitions acts' (step a st)
  end.

(** The lifecycle states in the order the specification lists them, and
    the changes of state it allows: forward in that order, or from
    [enhancement_failed] back to [enhancing]. *)
Definition lifecycle : list string :=
  [ "ingested"; "enhancing"; "enhanced"; "enhancement_failed";
    "dispatching"; "published"; "publish_failed" ].

Definition position (s : string) : option nat :=
  fst <$> list_find (fun x => x = s) lifecycle.

Definition allowed_transition (from to : string) : bool :=
  match position from, position to with
  | Some i, Some j =>
      bool_decide (i < j)%nat
      || (bool_decide (from = "enhancement_failed") && bool_decide (to = "enhancing"))
  | _, _ => false
  end.

(** An item across one step: it is the same item, and its status is the
    one it had or one the order allows after it. *)
Definition item_step_ok (item item' : ContentItem.t) : Prop :=
  ContentItem.id item' = ContentItem.id item
  /\ (ContentItem.status item' = ContentItem.status item
      \/ allowed_transition (ContentItem.status item) (ContentItem.status item') = true).

(** [m] keeps the observation [g]: it is the same after the call as
    before, however the call ends. *)
Definition keeps {A B} (g : AppState -> B) (m : M A) : Prop :=
  forall st, g (exec m st) = g st.

(** ** Observations on the document *)

Definition chrome (st : AppState) : Dom.Chrome := Dom.chrome (document st).
Definition views (st : AppState) : Dom.Views := Dom.views (document st).

(** The sections that carry the class [active], and the other elements
    that do (the modals). *)
Definition activeSections (st : AppState) : list string :=
  filter (fun i => i ∈ Dom.sections (chrome st)) (Dom.activeIds (chrome st)).
Definition activeOthers (st : AppState) : list string :=
  filter (fun i => i ∉ Dom.sections (chrome st)) (Dom.activeIds (chrome st)).

(** What [navigateToSection] does to the classes: the function it hands
    to the document. *)
Definition navigated (sectionId : string) (c : Dom.Chrome) : Dom.Chrome :=
  let cleared := filter (fun i => i ∉ Dom.sections c) (Dom.activeIds c) in
  Dom.set_active
    (if bool_decide (sectionId ∈ Dom.ids c) then add_active sectionId cleared
     else cleared)
    (if bool_decide (sectionId ∈ Dom.navLinks c) then [sectionId] else [])
    c.

(** The icon [updateThemeIcon] shows for a theme. *)
Definition themeIconFor (theme : string) : string :=
  if decide (theme = "light") then "🌙" else "☀️".

(** The theme a click on the toggle switches to. *)
Definition otherTheme (theme : string) : string :=
  if decide (theme = "light") then "dark" else "light".

(** Documents that lack an element: the page without the element of id
    [i], and the page without its [.theme-icon]. *)
Definition without_element (i : string) (st : AppState) : AppState :=
  with_document (Dom.with_chrome (fun c =>
    Dom.Build_Chrome (filter (fun j => j <> i) (Dom.ids c)) (Dom.sections c)
      (Dom.navLinks c) (Dom.activeIds c) (Dom.activeNavLinks c)
      (Dom.colorScheme c) (Dom.themeIcon c) (Dom.bodyOverflow c))) st.

Definition without_themeIcon (st : AppState) : AppState :=
  with_document (Dom.with_chrome (fun c =>
    Dom.Build_Chrome (Dom.ids c) (Dom.sections c) (Dom.navLinks c)
      (Dom.activeIds c) (Dom.activeNavLinks c) (Dom.colorScheme c) None
      (Dom.bodyOverflow c))) st.

(** What [openModal] and [closeModal] do to the classes and to the
    scroll lock of the body, when the element exists. *)
Definition opened (modalId : string) (c : Dom.Chrome) : Dom.Chrome :=
  Dom.set_bodyOverflow "hidden"
    (Dom.set_active (add_active modalId (Dom.activeIds c))
       (Dom.activeNavLinks c) c).

Definition closed (modalId : string) (c : Dom.Chrome) : Dom.Chrome :=
  Dom.set_bodyOverflow ""
    (Dom.set_active (filter (fun i => i <> modalId) (Dom.activeIds c))
       (Dom.activeNavLinks c) c).

(** The rendered cards, and what [filterContent] makes of one card. *)
Definition cards (st : AppState) : list ContentCard :=
  Dom.contentLibrary (views st).

Definition filterCard (searchValue filterValue : string) (item : ContentCard)
    : ContentCard :=
  let searchTerm := toLowerCase searchValue in
  let statusFilter := filterValue in
  let title := toLowerCase (content_title item) in
  let summary := toLowerCase (content_summary item) in
  let status := toLowerCase (content_status item) in
  let matchesSearch := includes title searchTerm || includes summary searchTerm in
  let matchesStatus :=
    bool_decide (statusFilter = "") || includes status (toLowerCase statusFilter) in
  {| content_title := content_title item;
     content_source := content_source item;
     content_date := content_date item;
     content_statusClass := content_statusClass item;
     content_status := content_status item;
     content_summary := content_summary item;
     content_platforms := content_platforms item;
     content_notPublished := content_notPublished item;
     content_display :=
       if matchesSearch && matchesStatus then "block" else "none" |}.

(** A card without its [display] style. *)
Definition card_content (c : ContentCard) :=
  (content_title c, content_source c, content_date c, content_statusClass c,
   content_status c, content_summary c, content_platforms c,
   content_notPublished c).

(** Strings of ASCII characters, on which the case functions here are
    those of JavaScript. *)
Fixpoint ascii_only (s : string) : bool :=
  match s with
  | EmptyString => true
  | String c s' => (nat_of_ascii c <? 128)%nat && ascii_only s'
  end.

(** Ids made of letters, digits, [-] and [_].  Put between the quotes of
    the attribute selector of [navigateToSection] they leave it well
    formed, so that [querySelector] answers and does not throw. *)
Definition selector_safe_char (c : ascii) : bool :=
  let n := nat_of_ascii c in
  ((48 <=? n) && (n <=? 57) || (65 <=? n) && (n <=? 90)
   || (97 <=? n) && (n <=? 122) || (n =? 45) || (n =? 95))%nat.

Fixpoint selector_safe (s : string) : bool :=
  match s with
  | EmptyString => true
  | String c s' => selector_safe_char c && selector_safe s'
  end.

(** Actions that leave the class list of the status badge alone: a
    navigation to a well-formed id other than the badge's, a modal call on
    another element than the badge, or any other action. *)
Definition spares_badge (a : Action) : bool :=
  match a with
  | ClickNav sectionId =>
      selector_safe sectionId && negb (String.eqb sectionId "systemStatus")
  | OpenModal modalId | CloseModal modalId =>
      negb (String.eqb modalId "systemStatus")
  | _ => true
  end.

(** The draws [Math.random()] can give: a significand below 2^53 over a
    power of two, and a value from 0 to 1, 1 excluded. *)
Definition double01 (r : Q) : bool :=
  (0 <=? Qnum r)%Z && (Qnum r <? 2 ^ 53)%Z && (Qnum r <? Zpos (Qden r))%Z
  && (Zpos (Qden r) =? 2 ^ Z.log2 (Zpos (Qden r)))%Z.

(** ** Relations between the states of a run *)

(** [m] moves the state along [R]: the state a call leaves, returned or
    thrown, is related to the state it found. *)
Definition preserves {A} (R : AppState -> AppState -> Prop) (m : M A) : Prop :=
  forall st, R st (exec m st).

(** The same elements, sections and links: what [getElementById] and the
    selectors answer. *)
Definition same_elements (st st' : AppState) : Prop :=
  Dom.ids (chrome st') = Dom.ids (chrome st)
  /\ Dom.sections (chrome st') = Dom.sections (chrome st)
  /\ Dom.navLinks (chrome st') = Dom.navLinks (chrome st).

(** Updates of classes and styles that keep the elements, and updates of
    the effects that only append. *)
Definition chrome_ok (f : Dom.Chrome -> Dom.Chrome) : Prop :=
  forall c, Dom.ids (f c) = Dom.ids c
            /\ Dom.sections (f c) = Dom.sections c
            /\ Dom.navLinks (f c) = Dom.navLinks c.

Definition effects_ok (f : Dom.Effects -> Dom.Effects) : Prop :=
  forall e, Dom.charts e `prefix_of` Dom.charts (f e)
            /\ Dom.notifications e `prefix_of` Dom.notifications (f e)
            /\ Dom.alerts e `prefix_of` Dom.alerts (f e).

(** The class and text [updateSystemStatus] gives the status badge. *)
Definition systemStatusView (status : string) : string * string :=
  ("status status--"
     +:+ statusClass3 status "running" "warning" "success" "warning" "error",
   statusClass3 status "running" "warning"
     "System Running" "System Warning" "System Error").

(** The page shows the data: each view filled from [mockData] is the
    rendering of what [mockData] holds now (for the cards, up to the
    [display] style the filter sets). *)
Definition rendered (st : AppState) : Prop :=
  Dom.serviceList (views st)
    = map renderService (services (systemStatus (mockData st)))
  /\ Dom.activityFeed (views st) = map renderActivity (feed st)
  /\ Dom.systemStatus (views st)
     = systemStatusView (overall (systemStatus (mockData st)))
  /\ Dom.sourcesTable (views st) = map renderSource (sources st)
  /\ map card_content (cards st)
     = map (fun item => card_content (renderContent item)) (library st)
  /\ Dom.platformsGrid (views st) = map renderPlatform (platforms st).

(** Along a step: the elements stay, and a page that has the sources
    table and the activity feed and shows the data still shows it. *)
Definition stays_rendered (st st' : AppState) : Prop :=
  same_elements st st'
  /\ (hasElement "sourcesTable" st = true ->
      hasElement "activityFeed" st = true ->
      rendered st -> rendered st').

(** The elements the load handler needs to get as far as the platform
    grid. *)
Definition loadIds : list string :=
  [ "themeToggle"; "serviceList"; "activityFeed"; "systemStatus";
    "sourcesTable"; "contentLibrary"; "platformsGrid" ].

(** What the load handler runs after the platform grid. *)
Definition afterLoads (prefersDark : bool) : M unit :=
  loadScrapingLogs ≫= fun _ =>
  initializeMonetizationChart ≫= fun _ =>
  if prefersDark then
    modify (set_currentTheme "dark");;
    modify (with_document (Dom.with_chrome (Dom.set_colorScheme "dark")));;
    updateThemeIcon
  else mret tt.

(** The page once its load handler has run. *)
Definition loadedPage (prefersDark : bool) : AppState :=
  exec (onDOMContentLoaded prefersDark) initialState.

(** ** The shipped page, evaluated *)

Example toggle_paused_source :
  map Source.status (sources (exec (toggleSource 3) initialState))
  = ["active"; "active"; "active"].
Proof. reflexivity. Qed.

Example toggle_active_source :
  map Source.status (sources (exec (toggleSource 1) initialState))
  = ["paused"; "active"; "paused"].
Proof. reflexivity. Qed.

Example toggle_rerenders_table :
  map row_toggleLabel
    (Dom.sourcesTable (Dom.views (document (exec (toggleSource 1) initialState))))
  = ["Resume"; "Pause"; "Resume"].
Proof. reflexivity. Qed.

(** A status that is neither [active] nor [paused] becomes [active] and
    does not come back. *)
Example toggled_other_status :
  let s := Source.mk 4 "Feed" "RSS" "https://example.org/feed" "error" 0 in
  Source.status (toggled s) = "active"
  /\ Source.status (toggled (toggled s)) = "paused".
Proof. split; reflexivity. Qed.

Example recorded_event :
  eventOf (0, 8 # 10, 0, "15:00")%Q
  = Activity.mk "15:00" "New article scraped from Maritime Hydrogen News" "warning"
  /\ eventOf (99 # 100, 0, 6 # 10, "15:01")%Q
    = Activity.mk "15:01" "Twitter post scheduled for publication" "info".
Proof. split; reflexivity. Qed.

(** The product of a draw and the length is rounded before the floor is
    taken: for the double nearest to 0.6 the product with 5 is the double
    3, where the exact product is below 3. *)
Example floor_of_rounded_product :
  floor_of_product (5404319552844595 # 9007199254740992) 5 = 3
  /\ Qfloor ((5404319552844595 # 9007199254740992) * inject_Z 5) = 2
  /\ Activity.action
       (newActivity (5404319552844595 # 9007199254740992) 0 0 "15:02")
     = "Affiliate link generated for SaaS tool".
Proof. repeat split; reflexivity. Qed.

Example feed_after_one_call :
  map Activity.time (feed (exec (record (0, 0, 0, "15:00")%Q) initialState))
  = ["15:00"; "14:30"; "14:25"; "14:20"; "14:15"].
Proof. reflexivity. Qed.

Example missing_element_throws :
  let st := with_document (Dom.with_chrome (fun c =>
              Dom.Build_Chrome [] (Dom.sections c) (Dom.navLinks c)
                (Dom.activeIds c) (Dom.activeNavLinks c) (Dom.colorScheme c)
                (Dom.themeIcon c) (Dom.bodyOverflow c))) initialState in
  loadContentSources st = Exn "TypeError" st
  /\ initializeMonetizationChart st = Val tt st.
Proof. split; reflexivity. Qed.

Example allowed_transition_cases :
  allowed_transition "enhanced" "dispatching" = true
  /\ allowed_transition "enhancement_failed" "enhancing" = true
  /\ allowed_transition "published" "enhanced" = false
  /\ allowed_transition "processing" "enhanced" = false.
Proof. repeat split; reflexivity. Qed.

(** A step that took an item from [published] back to [enhanced] would
    not pass. *)
Example item_step_ok_rejects_backward :
  ~ item_step_ok (ContentItem.mk 1 "t" "s" "published" "" [] "")
                 (ContentItem.mk 1 "t" "s" "enhanced" "" [] "").
Proof. intros [_ [H|H]]; discriminate H. Qed.

(** ** Frame lemmas: what a call leaves alone *)

Create HintDb frame.
Create HintDb writers.
Create HintDb along.

Section Frame.
Context {B : Type} (g : AppState -> B).

Lemma keeps_ret {A} (a : A) : keeps g (mret a).
Proof. intros st. reflexivity. Qed.

Lemma keeps_throw {A} (e : string) : keeps g (@throw A e).
Proof. intros st. reflexivity. Qed.

Lemma keeps_get : keeps g get.
Proof. intros st. reflexivity. Qed.

Lemma keeps_bind {A C} (m : M A) (f : A -> M C) :
  keeps g m -> (forall a, keeps g (f a)) -> keeps g (m ≫= f).
Proof.
  intros Hm Hf st. specialize (Hm st). unfold exec in *.
  unfold mbind, M_bind. destruct (m st) as [a st'|e st'] eqn:E; cbn in *.
  - specialize (Hf a st'). unfold exec in Hf. rewrite Hf. exact Hm.
  - exact Hm.
Qed.

Lemma keeps_modify (f : AppState -> AppState) :
  (forall st, g (f st) = g st) -> keeps g (modify f).
Proof. intros H st. apply H. Qed.

Lemma keeps_if {A} (b : bool) (m1 m2 : M A) :
  keeps g m1 -> keeps g m2 -> keeps g (if b then m1 else m2).
Proof. destruct b; auto. Qed.

(** Observations that do not look at the document or at the two script
    variables are kept by every function that only renders. *)
Hypothesis g_document : forall f st, g (with_document f st) = g st.
Hypothesis g_theme : forall v st, g (set_currentTheme v st) = g st.
Hypothesis g_section : forall v st, g (set_currentSection v st) = g st.

Lemma keeps_getElementById i : keeps g (getElementById i).
Proof. intros st. reflexivity. Qed.

Lemma keeps_assignElement i f : keeps g (assignElement i f).
Proof.
  apply keeps_bind; [apply keeps_getElementById|].
  intros []; [apply keeps_modify; auto | apply keeps_throw].
Qed.

Local Hint Resolve keeps_ret keeps_throw keeps_get keeps_getElementById
  keeps_assignElement : frame.
Local Hint Extern 2 (keeps g (modify _)) => apply keeps_modify; intros : frame.
Local Hint Extern 3 (keeps g (_ ≫= _)) => apply keeps_bind; [|intros] : frame.
Local Hint Extern 3 (keeps g (if _ then _ else _)) => apply keeps_if : frame.
Local Hint Extern 3 (keeps g (match ?x with _ => _ end)) => destruct x : frame.
Local Hint Extern 1 (g _ = g _) =>
  rewrite ?g_document, ?g_theme, ?g_section; reflexivity : frame.

Ltac frame_of f := unfold f; auto 20 with frame.

Lemma keeps_loadServiceStatus : keeps g loadServiceStatus.
Proof. frame_of loadServiceStatus. Qed.
Lemma keeps_loadRecentActivity : keeps g loadRecentActivity.
Proof. frame_of loadRecentActivity. Qed.
Lemma keeps_updateSystemStatus : keeps g updateSystemStatus.
Proof. frame_of updateSystemStatus. Qed.
Lemma keeps_loadContentSources : keeps g loadContentSources.
Proof. frame_of loadContentSources. Qed.
Lemma keeps_loadContentLibrary : keeps g loadContentLibrary.
Proof. frame_of loadContentLibrary. Qed.
Lemma keeps_loadDistributionPlatforms : keeps g loadDistributionPlatforms.
Proof. frame_of loadDistributionPlatforms. Qed.
Lemma keeps_loadScrapingLogs : keeps g loadScrapingLogs.
Proof. frame_of loadScrapingLogs. Qed.
Lemma keeps_loadSubscriptionStats : keeps g loadSubscriptionStats.
Proof. frame_of loadSubscriptionStats. Qed.
Lemma keeps_updateThemeIcon : keeps g updateThemeIcon.
Proof. frame_of updateThemeIcon. Qed.
Lemma keeps_showNotification message type : keeps g (showNotification message type).
Proof. frame_of showNotification. Qed.

Local Hint Resolve keeps_loadServiceStatus keeps_loadRecentActivity
  keeps_updateSystemStatus keeps_loadContentSources keeps_loadContentLibrary
  keeps_loadDistributionPlatforms keeps_loadScrapingLogs
  keeps_loadSubscriptionStats keeps_updateThemeIcon keeps_showNotification
  : frame.

Lemma keeps_loadDashboardData : keeps g loadDashboardData.
Proof. frame_of loadDashboardData. Qed.
Lemma keeps_initializeMonetizationChart : keeps g initializeMonetizationChart.
Proof. frame_of initializeMonetizationChart. Qed.
Lemma keeps_initializeThemeToggle : keeps g initializeThemeToggle.
Proof. frame_of initializeThemeToggle. Qed.
Lemma keeps_navigateToSection sectionId : keeps g (navigateToSection sectionId).
Proof. frame_of navigateToSection. Qed.
Lemma keeps_themeToggleClick : keeps g themeToggleClick.
Proof. frame_of themeToggleClick. Qed.
Lemma keeps_openModal modalId : keeps g (openModal modalId).
Proof. frame_of openModal. Qed.
Lemma keeps_closeModal modalId : keeps g (closeModal modalId).
Proof. frame_of closeModal. Qed.
Lemma keeps_editSource sourceId : keeps g (editSource sourceId).
Proof. frame_of editSource. Qed.
Lemma keeps_refreshScrapingLogs : keeps g refreshScrapingLogs.
Proof. frame_of refreshScrapingLogs. Qed.
Lemma keeps_startScraping : keeps g startScraping.
Proof. frame_of startScraping. Qed.
Lemma keeps_filterContent searchValue filterValue :
  keeps g (filterContent searchValue filterValue).
Proof. frame_of filterContent. Qed.

Local Hint Resolve keeps_loadDashboardData keeps_initializeMonetizationChart
  keeps_initializeThemeToggle : frame.

Lemma keeps_onDOMContentLoaded prefersDark : keeps g (onDOMContentLoaded prefersDark).
Proof. unfold onDOMContentLoaded, initializeNavigation. auto 30 with frame. Qed.

(** The two functions that assign into [mockData] keep whatever does not
    look at the field they assign. *)
Lemma keeps_toggleSource sourceId :
  (forall v st, g (with_mockData (set_contentSources v) st) = g st) ->
  keeps g (toggleSource sourceId).
Proof.
  intros Hsrc. unfold toggleSource.
  apply keeps_bind; [apply keeps_get|]. intros st.
  destruct (list_find _ _) as [[i source]|]; [|apply keeps_ret].
  apply keeps_bind; [|intros; apply keeps_loadContentSources].
  apply keeps_modify. intros st'. apply Hsrc.
Qed.

Lemma keeps_updateRecentActivity r1 r2 r3 currentTime :
  (forall v st, g (with_mockData (set_recentActivity v) st) = g st) ->
  keeps g (updateRecentActivity r1 r2 r3 currentTime).
Proof.
  intros Hact. unfold updateRecentActivity.
  apply keeps_bind; [apply keeps_modify; intros st'; apply Hact|intros _].
  apply keeps_bind; [apply keeps_modify; intros st'; apply Hact|intros _].
  apply keeps_loadRecentActivity.
Qed.

Lemma keeps_autoRefreshTick r1 r2 r3 currentTime :
  (forall v st, g (with_mockData (set_recentActivity v) st) = g st) ->
  keeps g (autoRefreshTick r1 r2 r3 currentTime).
Proof.
  intros Hact. unfold autoRefreshTick.
  apply keeps_bind; [apply keeps_get|]. intros st.
  destruct (decide _); [apply keeps_updateRecentActivity, Hact|apply keeps_ret].
Qed.

(** Every action keeps an observation that ignores the document, the
    script variables, the source list and the activity list. *)
Lemma keeps_perform a :
  (forall v st, g (with_mockData (set_contentSources v) st) = g st) ->
  (forall v st, g (with_mockData (set_recentActivity v) st) = g st) ->
  keeps g (perform a).
Proof.
  intros Hsrc Hact. destruct a; cbn [perform].
  - apply keeps_onDOMContentLoaded.
  - apply keeps_navigateToSection.
  - apply keeps_themeToggleClick.
  - apply keeps_openModal.
  - apply keeps_closeModal.
  - apply keeps_editSource.
  - apply keeps_toggleSource, Hsrc.
  - apply keeps_refreshScrapingLogs.
  - apply keeps_startScraping.
  - apply keeps_filterContent.
  - apply keeps_autoRefreshTick, Hact.
Qed.
End Frame.

(** A generic fact on runs: what every action keeps is the same in every
    state of a run. *)
Lemma trace_keeps {B} (g : AppState -> B) :
  (forall a st, g (step a st) = g st) ->
  forall acts st0, Forall (fun s => g s = g st0) (trace acts st0).
Proof.
  intros Hstep acts. induction acts as [|a acts IH]; intros st0; cbn [trace].
  - repeat constructor.
  - constructor; [reflexivity|].
    eapply Forall_impl; [apply IH|]. cbn. intros s ->. apply Hstep.
Qed.

(** ** Pausing and resuming a source *)

Lemma toggled_fixed_fields s : fixed_fields (toggled s) = fixed_fields s.
Proof. reflexivity. Qed.

Lemma toggled_involutive s :
  Source.status s = "active" \/ Source.status s = "paused" ->
  toggled (toggled s) = s.
Proof.
  destruct s as [i n t u stat a]; cbn. intros [->| ->]; reflexivity.
Qed.

Lemma exec_bind {A C} (m : M A) (f : A -> M C) st :
  exec (m ≫= f) st =
  match m st with Val a st' => exec (f a) st' | Exn _ st' => st' end.
Proof. unfold exec, mbind, M_bind. destruct (m st); reflexivity. Qed.

Lemma sources_loadContentSources st :
  sources (exec loadContentSources st) = sources st.
Proof. apply (keeps_loadContentSources sources); reflexivity. Qed.

(** The source list after a toggle, by cases on what [find] returns. *)
Lemma sources_toggleSource sourceId st :
  sources (exec (toggleSource sourceId) st) =
  match list_find (fun s => Source.id s = sourceId) (sources st) with
  | Some (i, source) => <[ i := toggled source ]> (sources st)
  | None => sources st
  end.
Proof.
  unfold toggleSource. rewrite exec_bind. cbn [get]. unfold sources at 2 3 4.
  destruct (list_find _ _) as [[i source]|]; [|reflexivity].
  rewrite exec_bind. cbn [modify]. rewrite sources_loadContentSources.
  reflexivity.
Qed.

Lemma toggleSource_not_found sourceId st :
  list_find (fun s => Source.id s = sourceId) (sources st) = None ->
  toggleSource sourceId st = Val tt st.
Proof.
  intros H. unfold toggleSource, mbind, M_bind, get. unfold sources in H.
  rewrite H. reflexivity.
Qed.

Lemma list_find_toggled sourceId (l : list Source.t) i s :
  list_find (fun s => Source.id s = sourceId) l = Some (i, s) ->
  list_find (fun s => Source.id s = sourceId) (<[ i := toggled s ]> l)
  = Some (i, toggled s).
Proof.
  intros H. apply list_find_Some in H as (Hi & Hid & Hlt).
  apply list_find_Some. split; [|split].
  - apply list_lookup_insert_eq. eapply lookup_lt_Some, Hi.
  - exact Hid.
  - intros j y Hj Hji. rewrite list_lookup_insert_ne in Hj by lia. eauto.
Qed.

(** With distinct ids, a registered source is the one [find] returns for
    its id. *)
Lemma list_find_registered (l : list Source.t) s :
  NoDup (map Source.id l) -> s ∈ l ->
  exists i, list_find (fun s' => Source.id s' = Source.id s) l = Some (i, s).
Proof.
  intros Hnd Hin. apply list_elem_of_lookup in Hin as [k Hk].
  destruct (list_find (fun s' => Source.id s' = Source.id s) l) as [[i s']|] eqn:E.
  - apply list_find_Some in E as (Hi & Hid & _).
    assert (i = k) as ->.
    { eapply NoDup_lookup; [exact Hnd| |].
      - rewrite list_lookup_fmap, Hi. reflexivity.
      - rewrite list_lookup_fmap, Hk. cbn. congruence. }
    exists k. congruence.
  - apply list_find_None in E. rewrite Forall_forall in E.
    exfalso. eapply E; [|reflexivity]. apply list_elem_of_lookup; eauto.
Qed.

(** C3, as the code has it.  [toggleSource] guards the assignment with
    [if (source)]: for an id no source carries, the call returns normally
    and leaves the whole state, document included, as it was.  No error is
    raised. *)
Theorem toggleSource_unknown_id_is_silent (sourceId : Z) (st : AppState) :
  Forall (fun s => Source.id s <> sourceId) (sources st) ->
  toggleSource sourceId st = Val tt st
  /\ exec (toggleSource sourceId) st = st
  /\ ~ fails_with "NotFound" (toggleSource sourceId) st.
Proof.
  intros H. apply (list_find_None (fun s => Source.id s = sourceId)) in H.
  pose proof (toggleSource_not_found sourceId st H) as E.
  split; [exact E|]. split.
  - unfold exec. rewrite E. reflexivity.
  - intros [st' Hf]. congruence.
Qed.

Lemma toggleSource_unknown_id_is_silent_witness :
  Forall (fun s => Source.id s <> 99) (sources initialState)
  /\ (toggleSource 99 initialState = Val tt initialState
      /\ exec (toggleSource 99) initialState = initialState
      /\ ~ fails_with "NotFound" (toggleSource 99) initialState).
Proof.
  assert (H : Forall (fun s => Source.id s <> 99) (sources initialState))
    by (vm_compute; repeat constructor; discriminate).
  split; [exact H | exact (toggleSource_unknown_id_is_silent 99 initialState H)].
Defined.

(** C3 as the specification words it fails: 99 is not the id of a
    registered source, yet the toggle returns normally, with the state
    unchanged, instead of failing with [NotFound]. *)
Lemma toggleSource_unknown_id_not_NotFound :
  Forall (fun s => Source.id s <> 99) (sources initialState)
  /\ toggleSource 99 initialState = Val tt initialState
  /\ ~ fails_with "NotFound" (toggleSource 99) initialState.
Proof.
  split; [vm_compute; repeat constructor; discriminate|].
  split; [reflexivity|].
  intros [st' H]. discriminate H.
Qed.

Lemma mockData_eq_sources (m1 m2 : MockData) :
  set_contentSources [] m1 = set_contentSources [] m2 ->
  contentSources m1 = contentSources m2 -> m1 = m2.
Proof.
  destruct m1, m2; unfold set_contentSources; cbn.
  intros H1 H2. injection H1 as -> -> -> -> -> ->. subst. reflexivity.
Qed.

(** The toggle, position by position. *)
Lemma sources_toggleSource_cases sourceId st :
  sources (exec (toggleSource sourceId) st) = sources st
  \/ exists i s,
       list_find (fun s => Source.id s = sourceId) (sources st) = Some (i, s)
       /\ sources (exec (toggleSource sourceId) st)
          = <[ i := toggled s ]> (sources st).
Proof.
  rewrite sources_toggleSource.
  destruct (list_find _ _) as [[i s]|] eqn:E; [right; eauto | left; reflexivity].
Qed.

Lemma insert_toggled_pointwise sourceId (l : list Source.t) i s :
  l !! i = Some s -> Source.id s = sourceId ->
  Forall2 (fun s s' => s' = s \/ (Source.id s = sourceId /\ s' = toggled s))
    l (<[ i := toggled s ]> l).
Proof.
  intros Hi Hid. apply Forall2_same_length_lookup_2.
  - rewrite length_insert. reflexivity.
  - intros j x y Hx Hy. destruct (decide (i = j)) as [->|Hne].
    + rewrite list_lookup_insert_eq in Hy by (eapply lookup_lt_Some, Hx).
      right. split; congruence.
    + rewrite list_lookup_insert_ne in Hy by exact Hne. left. congruence.
Qed.

Lemma fixed_fields_toggleSource sourceId st :
  map fixed_fields (sources (exec (toggleSource sourceId) st))
  = map fixed_fields (sources st).
Proof.
  destruct (sources_toggleSource_cases sourceId st) as [->|(i & s & Hf & ->)];
    [reflexivity|].
  apply list_find_Some in Hf as (Hi & _ & _).
  change (map fixed_fields) with (fmap (M:=list) fixed_fields).
  rewrite list_fmap_insert, toggled_fixed_fields.
  apply list_insert_id. rewrite list_lookup_fmap, Hi. reflexivity.
Qed.

(** Only a toggle assigns into the source list. *)
Lemma sources_step_other a st :
  match a with
  | ToggleSource _ => True
  | _ => sources (step a st) = sources st
  end.
Proof.
  destruct a; try exact I; unfold step; cbn [perform].
  - apply (keeps_onDOMContentLoaded sources); reflexivity.
  - apply (keeps_navigateToSection sources); reflexivity.
  - apply (keeps_themeToggleClick sources); reflexivity.
  - apply (keeps_openModal sources); reflexivity.
  - apply (keeps_closeModal sources); reflexivity.
  - apply (keeps_editSource sources); reflexivity.
  - apply (keeps_refreshScrapingLogs sources); reflexivity.
  - apply (keeps_startScraping sources); reflexivity.
  - apply (keeps_filterContent sources); reflexivity.
  - apply (keeps_autoRefreshTick sources); reflexivity.
Qed.

Lemma fixed_fields_step a st :
  map fixed_fields (sources (step a st)) = map fixed_fields (sources st).
Proof.
  pose proof (sources_step_other a st) as H.
  destruct a; try (rewrite H; reflexivity).
  unfold step; cbn [perform]. apply fixed_fields_toggleSource.
Qed.

(** C6.  A toggle changes at most the status of the one source [find]
    returns for the id: every position of the list holds either the source
    it held or, at the position found, that source with the other status;
    id, name, type, url and article count stay at every position, and so
    does the length.  Every action of the page keeps those fields and the
    length of the list, so no source is ever removed, and every action
    other than a toggle leaves the list as it is. *)
Theorem toggleSource_changes_status_only (sourceId : Z) (a : Action) (st : AppState) :
  let l := sources st in
  let l' := sources (exec (toggleSource sourceId) st) in
  (l' = l
   \/ exists i s, list_find (fun s => Source.id s = sourceId) l = Some (i, s)
        /\ l' = <[ i := toggled s ]> l)
  /\ Forall2 (fun s s' =>
       s' = s \/ (Source.id s = sourceId /\ s' = toggled s)) l l'
  /\ map fixed_fields l' = map fixed_fields l
  /\ length l' = length l
  /\ map fixed_fields (sources (step a st)) = map fixed_fields l
  /\ length (sources (step a st)) = length l
  /\ match a with
     | ToggleSource _ => True
     | _ => sources (step a st) = l
     end.
Proof.
  cbn zeta. repeat split.
  - apply sources_toggleSource_cases.
  - destruct (sources_toggleSource_cases sourceId st) as [->|(i & s & Hf & ->)].
    + apply Forall2_same_length_lookup_2; [reflexivity|].
      intros j x y Hx Hy. left. congruence.
    + apply list_find_Some in Hf as (Hi & Hid & _).
      apply insert_toggled_pointwise; assumption.
  - apply fixed_fields_toggleSource.
  - rewrite <- (length_map fixed_fields), fixed_fields_toggleSource.
    apply length_map.
  - apply fixed_fields_step.
  - rewrite <- (length_map fixed_fields), fixed_fields_step. apply length_map.
  - apply sources_step_other.
Qed.

(** Two toggles with the id of the source [find] returns, when that
    source is [active] or [paused]. *)
Lemma sources_toggleSource_twice sourceId st i s :
  list_find (fun s => Source.id s = sourceId) (sources st) = Some (i, s) ->
  Source.status s = "active" \/ Source.status s = "paused" ->
  sources (exec (toggleSource sourceId) (exec (toggleSource sourceId) st))
    = sources st.
Proof.
  intros Hfind Hstatus.
  rewrite (sources_toggleSource sourceId (exec _ st)).
  rewrite (sources_toggleSource sourceId st), Hfind.
  rewrite (list_find_toggled _ _ _ _ Hfind).
  rewrite list_insert_insert_eq, toggled_involutive by exact Hstatus.
  apply list_insert_id. apply list_find_Some in Hfind as (Hi & _). exact Hi.
Qed.

(** The ids of the sources are the same in every state of every run: 1, 2
    and 3 from the state the page starts in, hence distinct. *)
Lemma source_ids_along_runs acts :
  Forall (fun st => map Source.id (sources st) = [1; 2; 3])
    (trace acts initialState).
Proof.
  assert (Hid : forall l : list Source.t,
            map Source.id l = map (fun t => t.1.1.1.1) (map fixed_fields l)).
  { intros l. rewrite map_map. reflexivity. }
  eapply Forall_impl;
    [apply (trace_keeps (fun st => map fixed_fields (sources st))
              fixed_fields_step)|].
  cbn beta. intros st H. rewrite Hid, H. reflexivity.
Qed.

(** C10.  For a registered source that is [active] or [paused], two
    toggles with its id put the source list, and with it the whole of
    [mockData], back as it was.  Ids identify sources: they are distinct,
    as they are in every state the page reaches
    ([source_ids_along_runs]). *)
Theorem toggleSource_twice_restores (st : AppState) (s : Source.t) :
  NoDup (map Source.id (sources st)) ->
  s ∈ sources st ->
  Source.status s = "active" \/ Source.status s = "paused" ->
  sources (exec (toggleSource (Source.id s)) (exec (toggleSource (Source.id s)) st))
    = sources st
  /\ mockData (exec (toggleSource (Source.id s)) (exec (toggleSource (Source.id s)) st))
    = mockData st.
Proof.
  intros Hnd Hin Hstatus.
  destruct (list_find_registered _ _ Hnd Hin) as [i Hfind].
  pose proof (sources_toggleSource_twice _ _ _ _ Hfind Hstatus) as Hsrc.
  split; [exact Hsrc|].
  pose proof (keeps_toggleSource (fun st => set_contentSources [] (mockData st))
    (fun _ _ => eq_refl) (Source.id s) (fun _ _ => eq_refl)) as Hk.
  pose proof (Hk (exec (toggleSource (Source.id s)) st)) as H2.
  pose proof (Hk st) as H1. cbn beta in H1, H2.
  apply mockData_eq_sources; [congruence | exact Hsrc].
Qed.

Lemma toggleSource_twice_restores_witness :
  let s := Source.mk 3 "Neurotech Patents" "API"
             "https://patents.uspto.gov/api/neurotech" "paused" 7 in
  NoDup (map Source.id (sources initialState))
  /\ (s ∈ sources initialState)
  /\ (Source.status s = "active" \/ Source.status s = "paused")
  /\ (sources (exec (toggleSource 3) (exec (toggleSource 3) initialState))
        = sources initialState
      /\ mockData (exec (toggleSource 3) (exec (toggleSource 3) initialState))
        = mockData initialState).
Proof.
  cbn zeta.
  assert (Hnd : NoDup (map Source.id (sources initialState))).
  { apply (bool_decide_unpack (NoDup (map Source.id (sources initialState)))).
    vm_compute. exact I. }
  assert (Hin : Source.mk 3 "Neurotech Patents" "API"
                  "https://patents.uspto.gov/api/neurotech" "paused" 7
                ∈ sources initialState).
  { vm_compute. do 2 apply list_elem_of_further. apply list_elem_of_here. }
  split; [exact Hnd|]. split; [exact Hin|].
  split; [right; reflexivity|].
  exact (toggleSource_twice_restores initialState _ Hnd Hin (or_intror eq_refl)).
Defined.

(** ** The activity feed *)

Lemma feed_record d st : feed (exec (record d) st) = take 5 (eventOf d :: feed st).
Proof.
  destruct d as [[[r1 r2] r3] t]. unfold record, eventOf, updateRecentActivity.
  rewrite exec_bind. cbn [modify]. rewrite exec_bind. cbn [modify].
  rewrite (keeps_loadRecentActivity feed) by reflexivity. reflexivity.
Qed.

Lemma outside_feed_record d st : outside_feed (exec (record d) st) = outside_feed st.
Proof.
  destruct d as [[[r1 r2] r3] t]. unfold record, updateRecentActivity.
  rewrite exec_bind. cbn [modify]. rewrite exec_bind. cbn [modify].
  unfold loadRecentActivity, assignElement, getElementById.
  rewrite exec_bind. cbn [get]. rewrite exec_bind.
  unfold mbind at 1, M_bind at 1. cbn [get].
  unfold mret, M_ret.
  destruct (bool_decide _); reflexivity.
Qed.

Lemma take_cons_take {A} (n : nat) (x : A) (l : list A) :
  take (S n) (x :: take (S n) l) = take (S n) (x :: l).
Proof. cbn. rewrite take_take. f_equal. f_equal. lia. Qed.

Lemma feed_records ds d st :
  feed (records (ds ++ [d]) st)
  = take 5 (rev (map eventOf (ds ++ [d])) ++ feed st).
Proof.
  revert d. induction ds as [|d' ds IH] using rev_ind; intros d.
  - cbn [app records foldl map rev]. apply feed_record.
  - unfold records in *. rewrite foldl_app. cbn [foldl].
    rewrite feed_record, IH.
    rewrite (map_app _ (ds ++ [d']) [d]), rev_app_distr. cbn [map rev app].
    apply (take_cons_take 4).
Qed.

Lemma outside_feed_records ds st : outside_feed (records ds st) = outside_feed st.
Proof.
  revert st. induction ds as [|d ds IH]; intros st; [reflexivity|].
  cbn [records foldl]. fold (records ds (exec (record d) st)).
  rewrite IH. apply outside_feed_record.
Qed.

(** C9.  A call of the updater puts one new event at the head and cuts the
    list to five; after any number of calls, at least one, the list is the
    five newest of all events recorded so far, newest first; it never has
    more than five entries; and the call changes nothing but the list and
    its rendering, so what fell off the end is counted nowhere. *)
Theorem updateRecentActivity_keeps_five_newest (ds : list Draw) (d : Draw) (st : AppState) :
  feed (exec (record d) st) = take 5 (eventOf d :: feed st)
  /\ (length (feed (exec (record d) st)) <= 5)%nat
  /\ feed (records (ds ++ [d]) st)
     = take 5 (rev (map eventOf (ds ++ [d])) ++ feed st)
  /\ (length (feed (records (ds ++ [d]) st)) <= 5)%nat
  /\ outside_feed (exec (record d) st) = outside_feed st
  /\ outside_feed (records (ds ++ [d]) st) = outside_feed st.
Proof.
  repeat split.
  - apply feed_record.
  - rewrite feed_record, length_take. lia.
  - apply feed_records.
  - rewrite feed_records, length_take. lia.
  - apply outside_feed_record.
  - apply outside_feed_records.
Qed.

(** C4 as the specification words it fails.  On the shipped page one call
    of the updater removes the event of 14:10 from the list, and nothing
    outside the list and its rendering changes: the drop is counted
    nowhere. *)
Lemma activity_log_drops_without_counter :
  let d : Draw := (0, 0, 0, "14:40")%Q in
  let e := Activity.mk "14:10"
             "Generated affiliate links for 2 SaaS recommendations" "info" in
  (e ∈ feed initialState)
  /\ (e ∉ feed (exec (record d) initialState))
  /\ outside_feed (exec (record d) initialState) = outside_feed initialState.
Proof.
  cbn zeta. split; [|split].
  - vm_compute. do 4 apply list_elem_of_further. apply list_elem_of_here.
  - intros H. vm_compute in H.
    repeat (apply elem_of_cons in H as [H|H]; [discriminate H|]).
    inversion H.
  - apply outside_feed_record.
Qed.

(** No function of the state can count the dropped events: on a feed of
    five equal events, recording the same event again drops one and gives
    back the very same state. *)
Lemma no_counter_of_dropped_events :
  ~ exists counter : AppState -> nat,
      forall d st,
        counter (exec (record d) st)
        = (counter st + (S (length (feed st)) - length (feed (exec (record d) st))))%nat.
Proof.
  intros [counter H].
  pose (d := ((0, 0, 0, "14:40")%Q : Draw)).
  pose (st := records [d; d; d; d; d] initialState).
  specialize (H d st).
  assert (E : exec (record d) st = st) by (vm_compute; reflexivity).
  rewrite E in H.
  assert (L : length (feed st) = 5%nat) by (vm_compute; reflexivity).
  rewrite L in H. lia.
Qed.

(** C4, as the code has it.  Recording an event puts it at the head of the
    list and keeps the previous events behind it in the order they had, as
    far as the fifth place; what was beyond the fourth place before is
    dropped, and nothing outside the list and its rendering changes, so no
    count of dropped events is kept. *)
Theorem activity_log_bounded_prepend (d : Draw) (st : AppState) :
  feed (exec (record d) st) = eventOf d :: take 4 (feed st)
  /\ feed st = (take 4 (feed st) ++ drop 4 (feed st))%list
  /\ length (feed (exec (record d) st)) = Nat.min 5 (S (length (feed st)))
  /\ outside_feed (exec (record d) st) = outside_feed st.
Proof.
  repeat split.
  - apply feed_record.
  - symmetry. apply take_drop.
  - rewrite feed_record, length_take. cbn [length]. lia.
  - apply outside_feed_record.
Qed.

(** ** Monetization *)

Lemma exec_initializeMonetizationChart st :
  exec initializeMonetizationChart st =
  if hasElement "revenueChart" st then
    let st' := with_document (Dom.with_effects
                 (Dom.add_chart (revenueChart (monetization (mockData st))))) st in
    if hasElement "subscriptionStats" st then
      with_document (Dom.with_views (Dom.set_subscriptionStats
        (subscriptionRows (subscriptions (monetization (mockData st))))))
        st'
    else st'
  else st.
Proof.
  unfold initializeMonetizationChart, loadSubscriptionStats, assignElement,
    getElementById, hasElement, exec, mbind, M_bind, get, modify, throw, mret, M_ret.
  cbn. destruct (bool_decide ("revenueChart" ∈ _)); cbn; [|reflexivity].
  destruct (bool_decide ("subscriptionStats" ∈ _)); reflexivity.
Qed.

(** Rounding to a double keeps the integers up to 2^53 in magnitude. *)
Lemma round64_exact n : Z.abs n <= 2 ^ 53 -> round64 n = n.
Proof.
  intros H. unfold round64.
  destruct (Z.abs n <? 2 ^ 53)%Z eqn:E; [reflexivity|].
  apply Z.ltb_ge in E. assert (Hn : Z.abs n = 2 ^ 53) by lia.
  destruct (Z.abs_eq_or_opp n) as [Ha|Ha]; rewrite Ha in Hn.
  - subst n. reflexivity.
  - assert (n = - 2 ^ 53) by lia. subst n. reflexivity.
Qed.

(** Between 2^53 and 2^56 the doubles are at most 8 apart, so rounding
    moves an integer up by 4 at most. *)
Lemma round64_upper n : 2 ^ 53 <= n -> n < 2 ^ 56 -> round64 n <= n + 4.
Proof.
  intros Hlo Hhi. unfold round64.
  rewrite (Z.abs_eq n) by lia.
  destruct (n <? 2 ^ 53)%Z eqn:E; [lia|].
  assert (Hs : Z.sgn n = 1) by (apply Z.sgn_pos; lia). rewrite Hs, Z.mul_1_l.
  assert (H53 : 53 <= Z.log2 n) by (apply Z.log2_le_pow2; lia).
  assert (H56 : Z.log2 n < 56) by (apply Z.log2_lt_pow2; lia).
  set (e := Z.log2 n) in *.
  assert (Hu : 2 ^ (e - 52) = 2 \/ 2 ^ (e - 52) = 4 \/ 2 ^ (e - 52) = 8).
  { assert (e = 53 \/ e = 54 \/ e = 55) as [->|[->| ->]] by lia; auto. }
  set (ulp := 2 ^ (e - 52)) in *.
  assert (Hpos : 0 < ulp) by lia.
  pose proof (Z.div_mod n ulp ltac:(lia)) as Hdm.
  pose proof (Z.mod_pos_bound n ulp Hpos) as Hr.
  set (q := n / ulp) in *. set (r := n mod ulp) in *.
  destruct (2 * r <? ulp)%Z eqn:E1; [nia|].
  destruct (ulp <? 2 * r)%Z eqn:E2.
  - apply Z.ltb_lt in E2. nia.
  - apply Z.ltb_ge in E1, E2. destruct (Z.even q); nia.
Qed.

(** C8 as the specification words it fails.  For a total revenue of 2^53
    and an affiliate revenue of -1 the difference 2^53 + 1 is no double
    and is rounded to 2^53: the three segments are -1, 2^53 and 0, and
    add up to 2^53 - 1, not to the total.  So the segments do not add up
    to the total for all integer values. *)
Lemma revenue_breakdown_sum_misses_total :
  let m := {| subscriptions := subscriptions (monetization mockData0);
              affiliateRevenue := -1;
              sponsoredPosts := 0;
              totalRevenue := 9007199254740992 |} in
  revenueBreakdown m = [-1; 9007199254740992; 0]
  /\ sum_list (revenueBreakdown m) = 9007199254740991
  /\ sum_list (revenueBreakdown m) <> totalRevenue m
  /\ ~ (forall m' : Monetization, sum_list (revenueBreakdown m') = totalRevenue m').
Proof.
  cbn zeta. split; [reflexivity|]. split; [reflexivity|].
  split; [intros H; vm_compute in H; discriminate H|].
  intros H.
  specialize (H {| subscriptions := subscriptions (monetization mockData0);
                   affiliateRevenue := -1;
                   sponsoredPosts := 0;
                   totalRevenue := 9007199254740992 |}).
  vm_compute in H. discriminate H.
Qed.

(** C8, as the code has it.  When the affiliate revenue, the total, 500
    per sponsored post and the two differences the code forms are integers
    of magnitude 2^53 at most, every number the code computes is exact:
    the three segments handed to the chart are the affiliate revenue, the
    total less the affiliate revenue less 500 per sponsored post, and 500
    per sponsored post, and they add up to the total revenue.  The middle
    segment is computed from the other three numbers and not read from the
    subscription counts, and it can be negative: it is -740 for the
    figures the page ships with. *)
Theorem revenue_breakdown_sums_to_total (m : Monetization) (subs : Subscriptions) :
  Z.abs (affiliateRevenue m) <= 2 ^ 53 ->
  Z.abs (totalRevenue m) <= 2 ^ 53 ->
  Z.abs (500 * sponsoredPosts m) <= 2 ^ 53 ->
  Z.abs (totalRevenue m - affiliateRevenue m) <= 2 ^ 53 ->
  Z.abs (totalRevenue m - affiliateRevenue m - 500 * sponsoredPosts m) <= 2 ^ 53 ->
  revenueBreakdown m
    = [ affiliateRevenue m;
        totalRevenue m - affiliateRevenue m - 500 * sponsoredPosts m;
        500 * sponsoredPosts m ]
  /\ sum_list (revenueBreakdown m) = totalRevenue m
  /\ chart_data (revenueChart m) = revenueBreakdown m
  /\ revenueBreakdown
       {| subscriptions := subs; affiliateRevenue := affiliateRevenue m;
          sponsoredPosts := sponsoredPosts m; totalRevenue := totalRevenue m |}
     = revenueBreakdown m
  /\ revenueBreakdown (monetization mockData0) = [1580; -740; 1500]
  /\ chartsDrawn initializeMonetizationChart initialState
     = [ revenueChart (monetization mockData0) ].
Proof.
  intros Ha Ht Hs Hd Hd'.
  assert (E : revenueBreakdown m
              = [ affiliateRevenue m;
                  totalRevenue m - affiliateRevenue m - 500 * sponsoredPosts m;
                  500 * sponsoredPosts m ]).
  { unfold revenueBreakdown, js_sub, js_mul.
    rewrite (round64_exact (affiliateRevenue m)) by exact Ha.
    rewrite (round64_exact (totalRevenue m)) by exact Ht.
    rewrite (round64_exact (sponsoredPosts m)) by lia.
    replace (sponsoredPosts m * 500) with (500 * sponsoredPosts m) by lia.
    rewrite (round64_exact (500 * sponsoredPosts m)) by exact Hs.
    rewrite (round64_exact (totalRevenue m - affiliateRevenue m)) by exact Hd.
    rewrite (round64_exact _ Hd'). reflexivity. }
  split; [exact E|].
  split; [rewrite E; unfold sum_list; cbn [foldr]; lia|].
  repeat split; reflexivity.
Qed.

Lemma revenue_breakdown_sums_to_total_witness :
  let m := {| subscriptions := subscriptions (monetization mockData0);
              affiliateRevenue := 1;
              sponsoredPosts := 2;
              totalRevenue := 9007199254740992 |} in
  Z.abs (affiliateRevenue m) <= 2 ^ 53
  /\ Z.abs (totalRevenue m) <= 2 ^ 53
  /\ Z.abs (500 * sponsoredPosts m) <= 2 ^ 53
  /\ Z.abs (totalRevenue m - affiliateRevenue m) <= 2 ^ 53
  /\ Z.abs (totalRevenue m - affiliateRevenue m - 500 * sponsoredPosts m) <= 2 ^ 53
  /\ (revenueBreakdown m
        = [ affiliateRevenue m;
            totalRevenue m - affiliateRevenue m - 500 * sponsoredPosts m;
            500 * sponsoredPosts m ]
      /\ sum_list (revenueBreakdown m) = totalRevenue m
      /\ chart_data (revenueChart m) = revenueBreakdown m
      /\ revenueBreakdown
           {| subscriptions := subscriptions (monetization mockData0);
              affiliateRevenue := affiliateRevenue m;
              sponsoredPosts := sponsoredPosts m; totalRevenue := totalRevenue m |}
         = revenueBreakdown m
      /\ revenueBreakdown (monetization mockData0) = [1580; -740; 1500]
      /\ chartsDrawn initializeMonetizationChart initialState
         = [ revenueChart (monetization mockData0) ]).
Proof.
  cbn zeta.
  pose (m := {| subscriptions := subscriptions (monetization mockData0);
                affiliateRevenue := 1;
                sponsoredPosts := 2;
                totalRevenue := 9007199254740992 |}).
  assert (Ha : Z.abs (affiliateRevenue m) <= 2 ^ 53) by (vm_compute; discriminate).
  assert (Ht : Z.abs (totalRevenue m) <= 2 ^ 53) by (vm_compute; discriminate).
  assert (Hs : Z.abs (500 * sponsoredPosts m) <= 2 ^ 53) by (vm_compute; discriminate).
  assert (Hd : Z.abs (totalRevenue m - affiliateRevenue m) <= 2 ^ 53)
    by (vm_compute; discriminate).
  assert (Hd' : Z.abs (totalRevenue m - affiliateRevenue m - 500 * sponsoredPosts m)
                <= 2 ^ 53) by (vm_compute; discriminate).
  split; [exact Ha|]. split; [exact Ht|]. split; [exact Hs|].
  split; [exact Hd|]. split; [exact Hd'|].
  exact (revenue_breakdown_sums_to_total m (subscriptions (monetization mockData0))
           Ha Ht Hs Hd Hd').
Defined.

(** C2.  Drawing the monetization view reads [mockData.monetization] and
    assigns nothing in [mockData]; drawn a second time from the state the
    first call left, it constructs the same chart, with the same three
    numbers, and renders the same subscription counts.  The chart is the
    one [revenueChart] gives for the monetization data, when the canvas
    exists, and none otherwise. *)
Theorem monetization_snapshot_reproducible (st : AppState) :
  let st1 := exec initializeMonetizationChart st in
  let st2 := exec initializeMonetizationChart st1 in
  mockData st1 = mockData st
  /\ mockData st2 = mockData st
  /\ chartsDrawn initializeMonetizationChart st
     = (if hasElement "revenueChart" st
        then [ revenueChart (monetization (mockData st)) ] else [])
  /\ chartsDrawn initializeMonetizationChart st1
     = chartsDrawn initializeMonetizationChart st
  /\ map chart_data (chartsDrawn initializeMonetizationChart st1)
     = map chart_data (chartsDrawn initializeMonetizationChart st)
  /\ Dom.subscriptionStats (Dom.views (document st1))
     = (if hasElement "revenueChart" st && hasElement "subscriptionStats" st
        then subscriptionRows (subscriptions (monetization (mockData st)))
        else Dom.subscriptionStats (Dom.views (document st)))
  /\ Dom.views (document st2) = Dom.views (document st1).
Proof.
  cbn zeta.
  assert (Hdrop : forall (l : list ChartConfig) c, drop (length l) (l ++ [c]) = [c]).
  { intros l c. rewrite drop_app_length. reflexivity. }
  assert (Hnil : forall (l : list ChartConfig), drop (length l) l = []).
  { intros l. apply drop_all. }
  assert (Hviews : forall i f s,
    hasElement i (with_document (Dom.with_views f) s) = hasElement i s)
    by reflexivity.
  assert (Heffects : forall i f s,
    hasElement i (with_document (Dom.with_effects f) s) = hasElement i s)
    by reflexivity.
  unfold chartsDrawn. rewrite (exec_initializeMonetizationChart st).
  destruct (hasElement "revenueChart" st) eqn:E1;
    [destruct (hasElement "subscriptionStats" st) eqn:E2|];
    cbn zeta; rewrite exec_initializeMonetizationChart;
    rewrite ?Hviews, ?Heffects, ?E1, ?E2; cbn zeta;
    unfold charts; cbn;
    rewrite ?Hdrop, ?Hnil; repeat split; reflexivity.
Qed.

(** ** What no action touches *)

Lemma library_step a st : library (step a st) = library st.
Proof. apply (keeps_perform library); reflexivity. Qed.

Lemma platforms_step a st : platforms (step a st) = platforms st.
Proof. apply (keeps_perform platforms); reflexivity. Qed.

(** ** Content items along a run *)

Lemma transitions_keep_library acts st0 :
  Forall (fun p => library (snd p) = library (fst p)) (transitions acts st0).
Proof.
  revert st0. induction acts as [|a acts IH]; intros st0; cbn [transitions].
  - constructor.
  - constructor; [apply library_step | apply IH].
Qed.

(** C1.  Along every run of the page, from any state, each step leaves
    every content item with the status it had, so no status ever changes
    against the allowed order; the content library is the same in every
    state of the run.  From the state the page starts in, no item is in
    state [published] in any state of any run, so none is seen published
    without having been [enhanced] first.  The page has no operation that
    assigns an item's status. *)
Theorem lifecycle_forward_only (acts : list Action) (st0 : AppState) :
  Forall (fun p => Forall2 item_step_ok (library (fst p)) (library (snd p)))
    (transitions acts st0)
  /\ Forall (fun s => library s = library st0) (trace acts st0)
  /\ Forall (fun s =>
       Forall (fun item => ContentItem.status item <> "published") (library s))
     (trace acts initialState).
Proof.
  split; [|split].
  - eapply Forall_impl; [apply transitions_keep_library|].
    intros [s s'] H. cbn [fst snd] in *. rewrite H.
    apply Forall2_same_length_lookup_2; [reflexivity|].
    intros i x y Hx Hy. assert (x = y) as -> by congruence.
    split; [reflexivity | left; reflexivity].
  - apply trace_keeps. apply library_step.
  - eapply Forall_impl; [apply (trace_keeps library library_step)|].
    cbn beta. intros s ->. vm_compute. repeat constructor; discriminate.
Qed.

(** ** Navigation *)

Lemma exec_navigateToSection sectionId st :
  exec (navigateToSection sectionId) st
  = set_currentSection sectionId
      (with_document (Dom.with_chrome (navigated sectionId)) st).
Proof. reflexivity. Qed.

Lemma navigateToSection_returns sectionId st :
  navigateToSection sectionId st
  = Val tt (set_currentSection sectionId
      (with_document (Dom.with_chrome (navigated sectionId)) st)).
Proof. reflexivity. Qed.

Lemma filter_sections_cleared (secs l : list string) :
  filter (fun i => i ∈ secs) (filter (fun i => i ∉ secs) l) = [].
Proof.
  induction l as [|x l IH]; [reflexivity|].
  rewrite (filter_cons (fun i => i ∉ secs)). destruct (decide (x ∉ secs)) as [H|H].
  - rewrite filter_cons_False by exact H. exact IH.
  - exact IH.
Qed.

Lemma filter_others_cleared (secs l : list string) :
  filter (fun i => i ∉ secs) (filter (fun i => i ∉ secs) l)
  = filter (fun i => i ∉ secs) l.
Proof. apply list_filter_filter_r. auto. Qed.



(** An id the document does not have is accepted all the same, when it
    is made of letters, digits, [-] and [_].  The call returns normally,
    no section is active afterwards and no link is highlighted, and
    [currentSection] is the unknown id. *)
Theorem navigateToSection_unknown_blanks_page (sectionId : string) (st : AppState) :
  selector_safe sectionId = true ->
  sectionId ∉ Dom.ids (chrome st) ->
  sectionId ∉ Dom.navLinks (chrome st) ->
  let st' := exec (navigateToSection sectionId) st in
  returns (navigateToSection sectionId) st
  /\ activeSections st' = []
  /\ activeOthers st' = activeOthers st
  /\ Dom.activeNavLinks (chrome st') = []
  /\ currentSection st' = sectionId.
Proof.
  intros _ Hid Hnav. cbn zeta. split; [eexists _, _; reflexivity|].
  rewrite exec_navigateToSection.
  unfold activeSections, activeOthers, chrome. cbn.
  rewrite (bool_decide_eq_false_2 _ Hid), (bool_decide_eq_false_2 _ Hnav).
  rewrite filter_sections_cleared, filter_others_cleared.
  repeat split; reflexivity.
Qed.

Lemma navigateToSection_unknown_blanks_page_witness :
  selector_safe "settings" = true
  /\ ("settings" ∉ Dom.ids (chrome initialState))
  /\ ("settings" ∉ Dom.navLinks (chrome initialState))
  /\ (let st' := exec (navigateToSection "settings") initialState in
      returns (navigateToSection "settings") initialState
      /\ activeSections st' = []
      /\ activeOthers st' = activeOthers initialState
      /\ Dom.activeNavLinks (chrome st') = []
      /\ currentSection st' = "settings").
Proof.
  assert (H1 : "settings" ∉ Dom.ids (chrome initialState)).
  { apply (bool_decide_unpack ("settings" ∉ Dom.ids (chrome initialState))).
    vm_compute. exact I. }
  assert (H2 : "settings" ∉ Dom.navLinks (chrome initialState)).
  { apply (bool_decide_unpack ("settings" ∉ Dom.navLinks (chrome initialState))).
    vm_compute. exact I. }
  split; [reflexivity|]. split; [exact H1|]. split; [exact H2|].
  exact (navigateToSection_unknown_blanks_page "settings" initialState eq_refl H1 H2).
Defined.

Lemma navigated_idempotent sectionId c :
  navigated sectionId (navigated sectionId c) = navigated sectionId c.
Proof.
  destruct c as [ids secs links act actl cs icon ov].
  unfold navigated, Dom.set_active. cbn.
  set (cleared := filter (fun i => i ∉ secs) act).
  assert (Hcl : filter (fun i => i ∉ secs) cleared = cleared)
    by apply filter_others_cleared.
  destruct (bool_decide (sectionId ∈ ids)); [|rewrite Hcl; reflexivity].
  f_equal. unfold add_active at 2 3.
  destruct (bool_decide (sectionId ∈ cleared)) eqn:E.
  - rewrite Hcl. unfold add_active. rewrite E. reflexivity.
  - rewrite filter_app, Hcl, filter_cons, filter_nil.
    destruct (decide (sectionId ∉ secs)) as [H|H].
    + unfold add_active. rewrite bool_decide_eq_true_2; [reflexivity|].
      apply elem_of_app. right. apply list_elem_of_here.
    + rewrite app_nil_r. unfold add_active. rewrite E. reflexivity.
Qed.

(** Asking twice for a section is asking once: the second call of
    [navigateToSection] with the same id changes nothing, whatever the id
    is and whatever is active. *)
Theorem navigateToSection_idempotent (sectionId : string) (st : AppState) :
  exec (navigateToSection sectionId) (exec (navigateToSection sectionId) st)
  = exec (navigateToSection sectionId) st.
Proof.
  rewrite !exec_navigateToSection.
  destruct st as [m th sec [w c e]].
  unfold set_currentSection, with_document, Dom.with_chrome. cbn.
  rewrite navigated_idempotent. reflexivity.
Qed.

Lemma exec_bind_get {C} (f : AppState -> M C) st :
  exec (get ≫= f) st = exec (f st) st.
Proof. reflexivity. Qed.

(** The timer only feeds the dashboard.  Once the page has been sent to a
    section other than [dashboard], of an id made of letters, digits, [-]
    and [_], a firing of the refresh timer changes nothing at all, so no
    event is recorded while another section shows; sent back to
    [dashboard], a firing records its event. *)
Theorem autoRefresh_only_on_dashboard
    (sectionId : string) (r1 r2 r3 : Q) (currentTime : string) (st : AppState) :
  selector_safe sectionId = true ->
  sectionId <> "dashboard" ->
  exec (autoRefreshTick r1 r2 r3 currentTime) (exec (navigateToSection sectionId) st)
    = exec (navigateToSection sectionId) st
  /\ exec (autoRefreshTick r1 r2 r3 currentTime)
       (exec (navigateToSection "dashboard") (exec (navigateToSection sectionId) st))
     = exec (updateRecentActivity r1 r2 r3 currentTime)
         (exec (navigateToSection "dashboard") (exec (navigateToSection sectionId) st))
  /\ feed (exec (autoRefreshTick r1 r2 r3 currentTime)
             (exec (navigateToSection "dashboard")
                (exec (navigateToSection sectionId) st)))
     = take 5 (newActivity r1 r2 r3 currentTime :: feed st).
Proof.
  intros _ Hne.
  assert (Hoff : forall s, currentSection s <> "dashboard" ->
            exec (autoRefreshTick r1 r2 r3 currentTime) s = s).
  { intros s Hs. unfold autoRefreshTick. rewrite exec_bind_get.
    destruct (decide (currentSection s = "dashboard")); [contradiction|reflexivity]. }
  assert (Hon : forall s, currentSection s = "dashboard" ->
            exec (autoRefreshTick r1 r2 r3 currentTime) s
            = exec (updateRecentActivity r1 r2 r3 currentTime) s).
  { intros s Hs. unfold autoRefreshTick. rewrite exec_bind_get.
    destruct (decide (currentSection s = "dashboard")); [reflexivity|contradiction]. }
  split; [|split].
  - apply Hoff. exact Hne.
  - apply Hon. reflexivity.
  - rewrite Hon by reflexivity.
    rewrite (feed_record (r1, r2, r3, currentTime)). reflexivity.
Qed.

Lemma autoRefresh_only_on_dashboard_witness :
  selector_safe "library" = true
  /\ "library" <> "dashboard"
  /\ (exec (autoRefreshTick 0 0 0 "14:40") (exec (navigateToSection "library") initialState)
        = exec (navigateToSection "library") initialState
      /\ exec (autoRefreshTick 0 0 0 "14:40")
           (exec (navigateToSection "dashboard")
              (exec (navigateToSection "library") initialState))
         = exec (updateRecentActivity 0 0 0 "14:40")
             (exec (navigateToSection "dashboard")
                (exec (navigateToSection "library") initialState))
      /\ feed (exec (autoRefreshTick 0 0 0 "14:40")
                 (exec (navigateToSection "dashboard")
                    (exec (navigateToSection "library") initialState)))
         = take 5 (newActivity 0 0 0 "14:40" :: feed initialState)).
Proof.
  assert (H : "library" <> "dashboard") by discriminate.
  split; [reflexivity|]. split; [exact H|].
  exact (autoRefresh_only_on_dashboard "library" 0 0 0 "14:40" initialState eq_refl H).
Defined.

(** ** Theme *)

(** A click on the toggle, by cases on whether the icon element exists:
    the variable and the attribute are assigned before the icon is
    looked up. *)
Lemma themeToggleClick_cases st :
  let theme := otherTheme (currentTheme st) in
  let st2 := with_document (Dom.with_chrome (Dom.set_colorScheme theme))
               (set_currentTheme theme st) in
  themeToggleClick st
  = match Dom.themeIcon (chrome st) with
    | Some _ =>
        Val tt (with_document
          (Dom.with_chrome (Dom.set_themeIcon (themeIconFor theme))) st2)
    | None => Exn "TypeError" st2
    end.
Proof.
  destruct st as [m th sec [w [ids secs links act actl cs icon ov] e]].
  unfold themeToggleClick, updateThemeIcon, mbind, M_bind, get, modify, throw,
    otherTheme, themeIconFor, chrome.
  cbn. destruct icon; reflexivity.
Qed.

Lemma otherTheme_involutive theme :
  theme = "light" \/ theme = "dark" -> otherTheme (otherTheme theme) = theme.
Proof. intros [->| ->]; reflexivity. Qed.

Lemma otherTheme_light_or_dark theme :
  otherTheme theme = "light" \/ otherTheme theme = "dark".
Proof. unfold otherTheme. destruct (decide _); [right|left]; reflexivity. Qed.

Lemma themeToggleClick_effect st :
  let st' := exec themeToggleClick st in
  currentTheme st' = otherTheme (currentTheme st)
  /\ (currentTheme st' = "light" \/ currentTheme st' = "dark")
  /\ Dom.colorScheme (chrome st') = Some (currentTheme st')
  /\ Dom.themeIcon (chrome st')
     = match Dom.themeIcon (chrome st) with
       | Some _ => Some (themeIconFor (currentTheme st'))
       | None => None
       end
  /\ mockData st' = mockData st.
Proof.
  cbn zeta. unfold exec. rewrite themeToggleClick_cases. cbn zeta.
  pose proof (otherTheme_light_or_dark (currentTheme st)) as H.
  destruct st as [m th sec [w [ids secs links act actl cs icon ov] e]].
  unfold chrome in *. cbn in *. destruct icon; cbn; repeat split; auto.
Qed.

(** The attribute follows the variable.  After a click on the theme
    toggle, whether it returns or throws, [currentTheme] is [light] or
    [dark], the [data-color-scheme] attribute of the document is that same
    value, and the icon, where the element exists, is the one of that
    theme; [mockData] is not assigned.  Any theme other than [light],
    known or not, is switched to [light]. *)
Theorem themeToggleClick_attribute_follows_theme (st : AppState) :
  let st' := exec themeToggleClick st in
  currentTheme st' = otherTheme (currentTheme st)
  /\ (currentTheme st' = "light" \/ currentTheme st' = "dark")
  /\ Dom.colorScheme (chrome st') = Some (currentTheme st')
  /\ Dom.themeIcon (chrome st')
     = match Dom.themeIcon (chrome st) with
       | Some _ => Some (themeIconFor (currentTheme st'))
       | None => None
       end
  /\ mockData st' = mockData st.
Proof. exact (themeToggleClick_effect st). Qed.

(** Two clicks on the theme toggle bring back the theme, when it is
    [light] or [dark]: the variable, the attribute and the icon are those
    of the theme the page had. *)
Theorem themeToggleClick_twice_restores (st : AppState) :
  currentTheme st = "light" \/ currentTheme st = "dark" ->
  let st2 := exec themeToggleClick (exec themeToggleClick st) in
  currentTheme st2 = currentTheme st
  /\ Dom.colorScheme (chrome st2) = Some (currentTheme st)
  /\ Dom.themeIcon (chrome st2)
     = match Dom.themeIcon (chrome st) with
       | Some _ => Some (themeIconFor (currentTheme st))
       | None => None
       end.
Proof.
  intros Hth. cbn zeta.
  destruct (themeToggleClick_effect st) as (E1 & _ & _ & I1 & _).
  destruct (themeToggleClick_effect (exec themeToggleClick st))
    as (E2 & _ & C2 & I2 & _).
  cbn zeta in *.
  assert (E : currentTheme (exec themeToggleClick (exec themeToggleClick st))
              = currentTheme st).
  { rewrite E2, E1. apply otherTheme_involutive, Hth. }
  rewrite C2, I2, I1, E. split; [reflexivity|]. split; [reflexivity|].
  destruct (Dom.themeIcon (chrome st)); reflexivity.
Qed.

Lemma themeToggleClick_twice_restores_witness :
  (currentTheme initialState = "light" \/ currentTheme initialState = "dark")
  /\ (let st2 := exec themeToggleClick (exec themeToggleClick initialState) in
      currentTheme st2 = currentTheme initialState
      /\ Dom.colorScheme (chrome st2) = Some (currentTheme initialState)
      /\ Dom.themeIcon (chrome st2)
         = match Dom.themeIcon (chrome initialState) with
           | Some _ => Some (themeIconFor (currentTheme initialState))
           | None => None
           end).
Proof.
  assert (H : currentTheme initialState = "light" \/ currentTheme initialState = "dark")
    by (left; reflexivity).
  split; [exact H|]. exact (themeToggleClick_twice_restores initialState H).
Defined.

(** Without the icon element the click throws, but only after the switch:
    the call fails with a [TypeError], and the theme variable and the
    attribute of the document have changed all the same. *)
Theorem themeToggleClick_without_icon (st : AppState) :
  Dom.themeIcon (chrome st) = None ->
  let st' := exec themeToggleClick st in
  fails_with "TypeError" themeToggleClick st
  /\ currentTheme st' = otherTheme (currentTheme st)
  /\ Dom.colorScheme (chrome st') = Some (otherTheme (currentTheme st)).
Proof.
  intros Hicon. cbn zeta. unfold exec, fails_with.
  rewrite themeToggleClick_cases. cbn zeta. rewrite Hicon.
  split; [eexists; reflexivity|]. split; reflexivity.
Qed.

Lemma themeToggleClick_without_icon_witness :
  Dom.themeIcon (chrome (without_themeIcon initialState)) = None
  /\ (let st' := exec themeToggleClick (without_themeIcon initialState) in
      fails_with "TypeError" themeToggleClick (without_themeIcon initialState)
      /\ currentTheme st' = otherTheme (currentTheme (without_themeIcon initialState))
      /\ Dom.colorScheme (chrome st')
         = Some (otherTheme (currentTheme (without_themeIcon initialState)))).
Proof.
  split; [reflexivity|].
  exact (themeToggleClick_without_icon (without_themeIcon initialState) eq_refl).
Defined.

(** ** Modals *)

Lemma openModal_cases modalId st :
  openModal modalId st
  = Val tt (if bool_decide (modalId ∈ Dom.ids (chrome st))
            then with_document (Dom.with_chrome (opened modalId)) st else st).
Proof.
  unfold openModal, getElementById, mbind, M_bind, get, modify, mret, M_ret, chrome.
  cbn. destruct (bool_decide _); reflexivity.
Qed.

Lemma closeModal_cases modalId st :
  closeModal modalId st
  = Val tt (if bool_decide (modalId ∈ Dom.ids (chrome st))
            then with_document (Dom.with_chrome (closed modalId)) st else st).
Proof.
  unfold closeModal, getElementById, mbind, M_bind, get, modify, mret, M_ret, chrome.
  cbn. destruct (bool_decide _); reflexivity.
Qed.

Lemma exec_openModal modalId st :
  modalId ∈ Dom.ids (chrome st) ->
  exec (openModal modalId) st = with_document (Dom.with_chrome (opened modalId)) st.
Proof.
  intros H. unfold exec. rewrite openModal_cases, (bool_decide_eq_true_2 _ H).
  reflexivity.
Qed.

Lemma exec_closeModal modalId st :
  modalId ∈ Dom.ids (chrome st) ->
  exec (closeModal modalId) st = with_document (Dom.with_chrome (closed modalId)) st.
Proof.
  intros H. unfold exec. rewrite closeModal_cases, (bool_decide_eq_true_2 _ H).
  reflexivity.
Qed.

Lemma filter_ne_absent (i : string) (l : list string) :
  i ∉ l -> filter (fun j => j <> i) l = l.
Proof.
  induction l as [|x l IH]; intros H; [reflexivity|].
  apply not_elem_of_cons in H as [Hx Hl].
  rewrite filter_cons_True by congruence. rewrite IH by exact Hl. reflexivity.
Qed.

Lemma filter_ne_add_active (i : string) (l : list string) :
  i ∉ l -> filter (fun j => j <> i) (add_active i l) = l.
Proof.
  intros H. unfold add_active. rewrite (bool_decide_eq_false_2 _ H).
  rewrite filter_app, (filter_ne_absent i l H).
  rewrite filter_cons_False by (intros Hne; exact (Hne eq_refl)).
  rewrite filter_nil. apply app_nil_r.
Qed.

(** Opening a modal and closing it again.  For a modal of the document
    that is not open, [openModal] marks it active and locks the scroll of
    the body; [closeModal] after it leaves the active elements exactly as
    they were before the modal was opened, with the scroll unlocked, and
    the highlighted links and [mockData] untouched. *)
Theorem openModal_closeModal_round_trip (modalId : string) (st : AppState) :
  modalId ∈ Dom.ids (chrome st) ->
  modalId ∉ Dom.activeIds (chrome st) ->
  let st1 := exec (openModal modalId) st in
  let st2 := exec (closeModal modalId) st1 in
  (modalId ∈ Dom.activeIds (chrome st1))
  /\ Dom.bodyOverflow (chrome st1) = "hidden"
  /\ Dom.activeIds (chrome st2) = Dom.activeIds (chrome st)
  /\ Dom.bodyOverflow (chrome st2) = ""
  /\ Dom.activeNavLinks (chrome st2) = Dom.activeNavLinks (chrome st)
  /\ mockData st2 = mockData st.
Proof.
  intros Hid Hact. cbn zeta.
  rewrite (exec_openModal _ _ Hid).
  rewrite exec_closeModal by exact Hid.
  destruct st as [m th sec [w [ids secs links act actl cs icon ov] e]].
  unfold chrome in *. cbn in *.
  split.
  { unfold add_active. rewrite (bool_decide_eq_false_2 _ Hact).
    apply elem_of_app. right. apply list_elem_of_here. }
  rewrite (filter_ne_add_active _ _ Hact). repeat split; reflexivity.
Qed.

Lemma openModal_closeModal_round_trip_witness :
  ("addSourceModal" ∈ Dom.ids (chrome initialState))
  /\ ("addSourceModal" ∉ Dom.activeIds (chrome initialState))
  /\ (let st1 := exec (openModal "addSourceModal") initialState in
      let st2 := exec (closeModal "addSourceModal") st1 in
      ("addSourceModal" ∈ Dom.activeIds (chrome st1))
      /\ Dom.bodyOverflow (chrome st1) = "hidden"
      /\ Dom.activeIds (chrome st2) = Dom.activeIds (chrome initialState)
      /\ Dom.bodyOverflow (chrome st2) = ""
      /\ Dom.activeNavLinks (chrome st2) = Dom.activeNavLinks (chrome initialState)
      /\ mockData st2 = mockData initialState).
Proof.
  assert (H1 : "addSourceModal" ∈ Dom.ids (chrome initialState)).
  { apply (bool_decide_unpack ("addSourceModal" ∈ Dom.ids (chrome initialState))).
    vm_compute. exact I. }
  assert (H2 : "addSourceModal" ∉ Dom.activeIds (chrome initialState)).
  { apply (bool_decide_unpack ("addSourceModal" ∉ Dom.activeIds (chrome initialState))).
    vm_compute. exact I. }
  split; [exact H1|]. split; [exact H2|].
  exact (openModal_closeModal_round_trip "addSourceModal" initialState H1 H2).
Defined.

(** Closing one modal unlocks the page under another.  With two modals of
    the document opened one after the other, closing the second leaves
    the first one active, yet the scroll lock of the body is released:
    [closeModal] clears the overflow style without looking at what else is
    open. *)
Theorem closeModal_unlocks_under_open_modal (first second : string) (st : AppState) :
  first ∈ Dom.ids (chrome st) ->
  second ∈ Dom.ids (chrome st) ->
  first <> second ->
  let st' := exec (closeModal second)
               (exec (openModal second) (exec (openModal first) st)) in
  (first ∈ Dom.activeIds (chrome st'))
  /\ (second ∉ Dom.activeIds (chrome st'))
  /\ Dom.bodyOverflow (chrome st') = "".
Proof.
  intros H1 H2 Hne. cbn zeta.
  rewrite (exec_openModal first st H1).
  rewrite (exec_openModal second) by exact H2.
  rewrite exec_closeModal by exact H2.
  destruct st as [m th sec [w [ids secs links act actl cs icon ov] e]].
  unfold chrome in *. cbn in *.
  split; [|split; [|reflexivity]].
  - apply list_elem_of_filter. split; [exact Hne|].
    assert (Hin : first ∈ add_active first act).
    { unfold add_active. destruct (bool_decide (first ∈ act)) eqn:E.
      - apply bool_decide_eq_true in E. exact E.
      - apply elem_of_app. right. apply list_elem_of_here. }
    unfold add_active at 1. destruct (bool_decide _); [exact Hin|].
    apply elem_of_app. left. exact Hin.
  - intros H. apply list_elem_of_filter in H as [H _]. exact (H eq_refl).
Qed.

Lemma closeModal_unlocks_under_open_modal_witness :
  ("addSourceModal" ∈ Dom.ids (chrome initialState))
  /\ ("addPlatformModal" ∈ Dom.ids (chrome initialState))
  /\ "addSourceModal" <> "addPlatformModal"
  /\ (let st' := exec (closeModal "addPlatformModal")
                   (exec (openModal "addPlatformModal")
                      (exec (openModal "addSourceModal") initialState)) in
      ("addSourceModal" ∈ Dom.activeIds (chrome st'))
      /\ ("addPlatformModal" ∉ Dom.activeIds (chrome st'))
      /\ Dom.bodyOverflow (chrome st') = "").
Proof.
  assert (H1 : "addSourceModal" ∈ Dom.ids (chrome initialState)).
  { apply (bool_decide_unpack ("addSourceModal" ∈ Dom.ids (chrome initialState))).
    vm_compute. exact I. }
  assert (H2 : "addPlatformModal" ∈ Dom.ids (chrome initialState)).
  { apply (bool_decide_unpack ("addPlatformModal" ∈ Dom.ids (chrome initialState))).
    vm_compute. exact I. }
  assert (H3 : "addSourceModal" <> "addPlatformModal") by discriminate.
  split; [exact H1|]. split; [exact H2|]. split; [exact H3|].
  exact (closeModal_unlocks_under_open_modal
           "addSourceModal" "addPlatformModal" initialState H1 H2 H3).
Defined.

(** ** The content filter *)

Lemma exec_filterContent searchValue filterValue st :
  exec (filterContent searchValue filterValue) st
  = with_document (Dom.with_views (fun w =>
      Dom.set_contentLibrary
        (map (filterCard searchValue filterValue) (Dom.contentLibrary w)) w)) st.
Proof. reflexivity. Qed.

Lemma cards_filterContent searchValue filterValue st :
  cards (exec (filterContent searchValue filterValue) st)
  = map (filterCard searchValue filterValue) (cards st).
Proof. reflexivity. Qed.

Lemma includes_empty s : includes s "" = true.
Proof. destruct s; reflexivity. Qed.

Lemma filterCard_content searchValue filterValue c :
  card_content (filterCard searchValue filterValue c) = card_content c.
Proof. reflexivity. Qed.

Lemma filterCard_absorbs s1 f1 s2 f2 c :
  filterCard s2 f2 (filterCard s1 f1 c) = filterCard s2 f2 c.
Proof. reflexivity. Qed.

(** An empty search with no status chosen shows every card: after
    [filterContent] with two empty inputs each rendered card has
    [display: block], whatever was hidden before. *)
Theorem filterContent_empty_shows_all (st : AppState) :
  Forall (fun c => content_display c = "block")
    (cards (exec (filterContent "" "") st))
  /\ length (cards (exec (filterContent "" "") st)) = length (cards st).
Proof.
  rewrite cards_filterContent. split; [|apply length_map].
  apply Forall_forall. intros c Hc.
  apply list_elem_of_fmap in Hc as (c0 & -> & _).
  unfold filterCard. cbn. rewrite includes_empty. reflexivity.
Qed.

(** Filters do not pile up.  [filterContent] rewrites only the [display]
    style of the cards: their number, order and content stay, and so does
    [mockData].  The style it sets depends on the card and on the two
    inputs only, so a filter applied after another gives what it gives
    alone (a card hidden by the first can come back), and applying the
    same filter twice is applying it once. *)
Theorem filterContent_last_filter_wins
    (s1 f1 s2 f2 : string) (st : AppState) :
  map card_content (cards (exec (filterContent s1 f1) st))
    = map card_content (cards st)
  /\ mockData (exec (filterContent s1 f1) st) = mockData st
  /\ exec (filterContent s2 f2) (exec (filterContent s1 f1) st)
     = exec (filterContent s2 f2) st
  /\ exec (filterContent s1 f1) (exec (filterContent s1 f1) st)
     = exec (filterContent s1 f1) st.
Proof.
  assert (H : forall a b c d,
    exec (filterContent c d) (exec (filterContent a b) st)
    = exec (filterContent c d) st).
  { intros a b c d. rewrite !exec_filterContent.
    destruct st as [m th sec [[v1 v2 v3 v4 v5 v6 v7 v8] ch e]].
    unfold with_document, Dom.with_views, Dom.set_contentLibrary. cbn.
    do 3 f_equal. rewrite map_map. apply map_ext. intros x.
    apply filterCard_absorbs. }
  split; [|split; [reflexivity|split; apply H]].
  rewrite cards_filterContent, map_map. apply map_ext. intros c.
  apply filterCard_content.
Qed.

Lemma lower_upper_ascii c : lower_ascii (upper_ascii c) = lower_ascii c.
Proof. destruct c as [[] [] [] [] [] [] [] []]; reflexivity. Qed.

Lemma toLowerCase_toUpperCase s : toLowerCase (toUpperCase s) = toLowerCase s.
Proof.
  induction s as [|c s IH]; [reflexivity|].
  cbn. rewrite lower_upper_ascii. f_equal. exact IH.
Qed.

Lemma toUpperCase_empty s : toUpperCase s = "" <-> s = "".
Proof. destruct s; cbn; split; intros H; try reflexivity; discriminate H. Qed.

(** The filter ignores the case of what is typed.  For inputs of ASCII
    characters, the search term and the status value written in capitals
    select exactly the cards they select as typed. *)
Theorem filterContent_ignores_case (searchValue filterValue : string) (st : AppState) :
  ascii_only searchValue = true ->
  ascii_only filterValue = true ->
  exec (filterContent (toUpperCase searchValue) (toUpperCase filterValue)) st
  = exec (filterContent searchValue filterValue) st.
Proof.
  intros _ _. rewrite !exec_filterContent.
  destruct st as [m th sec [[v1 v2 v3 v4 v5 v6 v7 v8] ch e]].
  unfold with_document, Dom.with_views, Dom.set_contentLibrary. cbn.
  do 3 f_equal. apply map_ext. intros c. unfold filterCard. cbn zeta.
  rewrite !toLowerCase_toUpperCase.
  assert (E : bool_decide (toUpperCase filterValue = "")
              = bool_decide (filterValue = "")).
  { apply bool_decide_ext, toUpperCase_empty. }
  rewrite E. reflexivity.
Qed.

Lemma filterContent_ignores_case_witness :
  ascii_only "fda" = true
  /\ ascii_only "enhanced" = true
  /\ exec (filterContent (toUpperCase "fda") (toUpperCase "enhanced"))
        (exec (onDOMContentLoaded false) initialState)
     = exec (filterContent "fda" "enhanced")
         (exec (onDOMContentLoaded false) initialState).
Proof.
  split; [reflexivity|]. split; [reflexivity|].
  exact (filterContent_ignores_case "fda" "enhanced"
           (exec (onDOMContentLoaded false) initialState) eq_refl eq_refl).
Defined.

(** ** The events the timer makes up *)

(** The index stays inside the list: the product of a draw and 5 is
    below 5 by 5 units of the draw's last place at least, and rounding
    moves it up by 4 such units at most. *)
Lemma floor_of_product_draw (r : Q) :
  double01 r = true ->
  (Z.to_nat (floor_of_product r (Z.of_nat (length activities))) < 5)%nat.
Proof.
  unfold double01. rewrite !andb_true_iff.
  intros [[[H0 H53] Hden] _].
  apply Z.leb_le in H0. apply Z.ltb_lt in H53. apply Z.ltb_lt in Hden.
  cbn [length activities]. change (Z.of_nat 5) with 5.
  unfold floor_of_product.
  assert (Hr : round64 (Qnum r * 5) < Z.pos (Qden r) * 5).
  { destruct (Z_lt_le_dec (Qnum r * 5) (2 ^ 53)) as [Hs|Hs].
    - rewrite round64_exact by lia. lia.
    - pose proof (round64_upper (Qnum r * 5) Hs ltac:(lia)). lia. }
  assert (Hq : round64 (Qnum r * 5) / Z.pos (Qden r) < 5)
    by (apply Z.div_lt_upper_bound; lia).
  lia.
Qed.

(** A made-up event is always well formed.  For a first draw that
    [Math.random()] can give, the text of the new activity is one of the
    five texts of the list, never [undefined]; its type is one of
    [warning], [info] and [success] whatever the draws; its time is the
    formatted clock. *)
Theorem newActivity_well_formed (r1 r2 r3 : Q) (currentTime : string) :
  double01 r1 = true ->
  (Activity.action (newActivity r1 r2 r3 currentTime) ∈ activities)
  /\ (Activity.type (newActivity r1 r2 r3 currentTime)
        ∈ ["warning"; "info"; "success"])
  /\ Activity.time (newActivity r1 r2 r3 currentTime) = currentTime.
Proof.
  intros H1. pose proof (floor_of_product_draw r1 H1) as Hn.
  unfold newActivity. cbn [Activity.action Activity.type Activity.time].
  split; [|split; [|reflexivity]].
  - set (n := Z.to_nat _) in *.
    destruct n as [|[|[|[|[|n]]]]]; [| | | | |lia]; cbn;
      repeat (first [apply list_elem_of_here | apply list_elem_of_further]).
  - destruct (Qlt_le_dec _ _); [|destruct (Qlt_le_dec _ _)];
      repeat (first [apply list_elem_of_here | apply list_elem_of_further]).
Qed.

Lemma newActivity_well_formed_witness :
  let r1 := (9007199254740991 # 9007199254740992)%Q in
  double01 r1 = true
  /\ ((Activity.action (newActivity r1 (1 # 2) (3 # 5) "15:01") ∈ activities)
      /\ (Activity.type (newActivity r1 (1 # 2) (3 # 5) "15:01")
            ∈ ["warning"; "info"; "success"])
      /\ Activity.time (newActivity r1 (1 # 2) (3 # 5) "15:01") = "15:01").
Proof.
  cbn zeta.
  assert (H1 : double01 (9007199254740991 # 9007199254740992) = true)
    by (vm_compute; reflexivity).
  split; [exact H1|].
  exact (newActivity_well_formed (9007199254740991 # 9007199254740992)
           (1 # 2) (3 # 5) "15:01" H1).
Defined.

(** ** More on pausing and resuming *)

Lemma loadContentSources_cases st :
  loadContentSources st
  = if hasElement "sourcesTable" st
    then Val tt (with_document (Dom.with_views
           (Dom.set_sourcesTable (map renderSource (sources st)))) st)
    else Exn "TypeError" st.
Proof.
  unfold loadContentSources, assignElement, getElementById, hasElement,
    mbind, M_bind, get, modify, throw, mret, M_ret, sources.
  cbn. destruct (bool_decide _); reflexivity.
Qed.

Lemma toggleSource_found sourceId st i s :
  list_find (fun s => Source.id s = sourceId) (sources st) = Some (i, s) ->
  toggleSource sourceId st
  = loadContentSources
      (with_mockData (fun m => set_contentSources
         (<[ i := toggled s ]> (contentSources m)) m) st).
Proof.
  intros H. unfold toggleSource, mbind, M_bind, get, modify. unfold sources in H.
  rewrite H. reflexivity.
Qed.

(** A toggle on a page without the sources table fails half way.  When
    the element [sourcesTable] is missing and the id is that of a source,
    the call throws a [TypeError], and the status of the source has been
    switched all the same: the assignment comes before the rendering. *)
Theorem toggleSource_without_table (sourceId : Z) (st : AppState) (i : nat) (s : Source.t) :
  hasElement "sourcesTable" st = false ->
  list_find (fun s => Source.id s = sourceId) (sources st) = Some (i, s) ->
  fails_with "TypeError" (toggleSource sourceId) st
  /\ sources (exec (toggleSource sourceId) st) = <[ i := toggled s ]> (sources st)
  /\ document (exec (toggleSource sourceId) st) = document st.
Proof.
  intros Hel Hfind. unfold fails_with, exec.
  rewrite (toggleSource_found _ _ _ _ Hfind), loadContentSources_cases.
  change (hasElement "sourcesTable" (with_mockData _ st))
    with (hasElement "sourcesTable" st).
  rewrite Hel. split; [eexists; reflexivity|]. split; reflexivity.
Qed.

Lemma toggleSource_without_table_witness :
  let st := without_element "sourcesTable" initialState in
  let s := Source.mk 1 "FDA Medical Device Updates" "RSS"
             "https://fda.gov/feeds/medical-devices.xml" "active" 42 in
  hasElement "sourcesTable" st = false
  /\ list_find (fun s => Source.id s = 1) (sources st) = Some (0%nat, s)
  /\ (fails_with "TypeError" (toggleSource 1) st
      /\ sources (exec (toggleSource 1) st) = <[ 0%nat := toggled s ]> (sources st)
      /\ document (exec (toggleSource 1) st) = document st).
Proof.
  cbn zeta. split; [reflexivity|]. split; [reflexivity|].
  exact (toggleSource_without_table 1 (without_element "sourcesTable" initialState)
           0%nat _ eq_refl eq_refl).
Defined.

(** Three toggles are one.  Whatever the status of the source, known or
    not, and whether the id is registered or not, toggling three times
    with an id leaves the source list as one toggle does: after the first
    toggle the status is [active] or [paused], and from there two toggles
    cancel. *)
Theorem toggleSource_thrice (sourceId : Z) (st : AppState) :
  sources (exec (toggleSource sourceId)
             (exec (toggleSource sourceId) (exec (toggleSource sourceId) st)))
  = sources (exec (toggleSource sourceId) st).
Proof.
  destruct (list_find (fun s => Source.id s = sourceId) (sources st))
    as [[i s]|] eqn:Hfind.
  - assert (H1 : sources (exec (toggleSource sourceId) st)
                 = <[ i := toggled s ]> (sources st)).
    { rewrite sources_toggleSource, Hfind. reflexivity. }
    apply (sources_toggleSource_twice sourceId _ i (toggled s)).
    + rewrite H1. apply list_find_toggled, Hfind.
    + unfold toggled. cbn. destruct (decide _); [right|left]; reflexivity.
  - assert (H1 : exec (toggleSource sourceId) st = st).
    { unfold exec. rewrite (toggleSource_not_found _ _ Hfind). reflexivity. }
    rewrite !H1. reflexivity.
Qed.

(** ** What every action preserves *)

(** Functions that write a view or a field of [mockData] keep whatever
    looks at neither. *)
Section Writers.
Context {B : Type} (g : AppState -> B).
Hypothesis g_views : forall f st, g (with_document (Dom.with_views f) st) = g st.
Hypothesis g_mockData : forall f st, g (with_mockData f st) = g st.

Lemma writer_assignElement i f : keeps g (assignElement i f).
Proof.
  apply keeps_bind; [intros st; reflexivity|].
  intros []; [apply keeps_modify; intros st; apply g_views | apply keeps_throw].
Qed.

Local Hint Resolve keeps_ret keeps_throw keeps_get writer_assignElement : writers.
Local Hint Extern 3 (keeps g (_ ≫= _)) => apply keeps_bind; [|intros] : writers.
Local Hint Extern 3 (keeps g (match ?x with _ => _ end)) => destruct x : writers.
Local Hint Extern 2 (keeps g (modify _)) =>
  apply keeps_modify; intros; first [apply g_views | apply g_mockData] : writers.

Lemma writer_loadServiceStatus : keeps g loadServiceStatus.
Proof. unfold loadServiceStatus. auto with writers. Qed.
Lemma writer_loadRecentActivity : keeps g loadRecentActivity.
Proof. unfold loadRecentActivity. auto with writers. Qed.
Lemma writer_updateSystemStatus : keeps g updateSystemStatus.
Proof. unfold updateSystemStatus. auto with writers. Qed.
Lemma writer_loadContentSources : keeps g loadContentSources.
Proof. unfold loadContentSources. auto with writers. Qed.
Lemma writer_loadContentLibrary : keeps g loadContentLibrary.
Proof. unfold loadContentLibrary. auto with writers. Qed.
Lemma writer_loadDistributionPlatforms : keeps g loadDistributionPlatforms.
Proof. unfold loadDistributionPlatforms. auto with writers. Qed.
Lemma writer_loadScrapingLogs : keeps g loadScrapingLogs.
Proof. unfold loadScrapingLogs. auto with writers. Qed.
Lemma writer_loadSubscriptionStats : keeps g loadSubscriptionStats.
Proof. unfold loadSubscriptionStats. auto with writers. Qed.
Lemma writer_filterContent searchValue filterValue :
  keeps g (filterContent searchValue filterValue).
Proof. unfold filterContent. auto with writers. Qed.

Local Hint Resolve writer_loadContentSources writer_loadRecentActivity : writers.

Lemma writer_toggleSource sourceId : keeps g (toggleSource sourceId).
Proof. unfold toggleSource. auto 10 with writers. Qed.
Lemma writer_updateRecentActivity r1 r2 r3 currentTime :
  keeps g (updateRecentActivity r1 r2 r3 currentTime).
Proof. unfold updateRecentActivity. auto 10 with writers. Qed.
End Writers.

(** A reflexive and transitive relation that the writers of views and
    data respect, and that is respected by updates of classes that keep
    the elements, by appended effects and by the two script variables, is
    respected by every action, hence along every run. *)
Section Along.
Context (R : AppState -> AppState -> Prop).
Hypothesis R_refl : forall st, R st st.
Hypothesis R_trans : forall st1 st2 st3, R st1 st2 -> R st2 st3 -> R st1 st3.

Lemma preserves_ret {A} (a : A) : preserves R (mret a).
Proof. intros st. apply R_refl. Qed.

Lemma preserves_throw {A} (e : string) : preserves R (@throw A e).
Proof. intros st. apply R_refl. Qed.

Lemma preserves_get : preserves R get.
Proof. intros st. apply R_refl. Qed.

Lemma preserves_getElementById i : preserves R (getElementById i).
Proof. intros st. apply R_refl. Qed.

Lemma preserves_bind {A C} (m : M A) (f : A -> M C) :
  preserves R m -> (forall a, preserves R (f a)) -> preserves R (m ≫= f).
Proof.
  intros Hm Hf st. specialize (Hm st). rewrite exec_bind. unfold exec in Hm.
  destruct (m st) as [a st'|e st']; [|exact Hm].
  eapply R_trans; [exact Hm | apply Hf].
Qed.

Lemma preserves_modify (f : AppState -> AppState) :
  (forall st, R st (f st)) -> preserves R (modify f).
Proof. intros H st. apply H. Qed.

Lemma preserves_if {A} (b : bool) (m1 m2 : M A) :
  preserves R m1 -> preserves R m2 -> preserves R (if b then m1 else m2).
Proof. destruct b; auto. Qed.

Hypothesis R_chrome : forall f st,
  chrome_ok f -> R st (with_document (Dom.with_chrome f) st).
Hypothesis R_effects : forall f st,
  effects_ok f -> R st (with_document (Dom.with_effects f) st).
Hypothesis R_theme : forall v st, R st (set_currentTheme v st).
Hypothesis R_section : forall v st, R st (set_currentSection v st).

Hypothesis R_loadServiceStatus : preserves R loadServiceStatus.
Hypothesis R_loadRecentActivity : preserves R loadRecentActivity.
Hypothesis R_updateSystemStatus : preserves R updateSystemStatus.
Hypothesis R_loadContentSources : preserves R loadContentSources.
Hypothesis R_loadContentLibrary : preserves R loadContentLibrary.
Hypothesis R_loadDistributionPlatforms : preserves R loadDistributionPlatforms.
Hypothesis R_loadScrapingLogs : preserves R loadScrapingLogs.
Hypothesis R_loadSubscriptionStats : preserves R loadSubscriptionStats.
Hypothesis R_filterContent : forall searchValue filterValue,
  preserves R (filterContent searchValue filterValue).
Hypothesis R_toggleSource : forall sourceId, preserves R (toggleSource sourceId).
Hypothesis R_updateRecentActivity : forall r1 r2 r3 currentTime,
  preserves R (updateRecentActivity r1 r2 r3 currentTime).

Lemma chrome_ok_set_active a l : chrome_ok (Dom.set_active a l).
Proof. intros c. repeat split; reflexivity. Qed.
Lemma chrome_ok_set_colorScheme v : chrome_ok (Dom.set_colorScheme v).
Proof. intros c. repeat split; reflexivity. Qed.
Lemma chrome_ok_set_themeIcon v : chrome_ok (Dom.set_themeIcon v).
Proof. intros c. repeat split; reflexivity. Qed.
Lemma chrome_ok_navigated sectionId : chrome_ok (navigated sectionId).
Proof. intros c. repeat split; reflexivity. Qed.
Lemma chrome_ok_opened modalId : chrome_ok (opened modalId).
Proof. intros c. repeat split; reflexivity. Qed.
Lemma chrome_ok_closed modalId : chrome_ok (closed modalId).
Proof. intros c. repeat split; reflexivity. Qed.

Lemma effects_ok_add_chart v : effects_ok (Dom.add_chart v).
Proof.
  intros e. cbn. repeat split; try reflexivity. apply prefix_app_r. reflexivity.
Qed.
Lemma effects_ok_add_notification v : effects_ok (Dom.add_notification v).
Proof.
  intros e. cbn. repeat split; try reflexivity. apply prefix_app_r. reflexivity.
Qed.
Lemma effects_ok_add_alert v : effects_ok (Dom.add_alert v).
Proof.
  intros e. cbn. repeat split; try reflexivity. apply prefix_app_r. reflexivity.
Qed.

Local Hint Resolve preserves_ret preserves_throw preserves_get
  preserves_getElementById
  R_loadServiceStatus R_loadRecentActivity R_updateSystemStatus
  R_loadContentSources R_loadContentLibrary R_loadDistributionPlatforms
  R_loadScrapingLogs R_loadSubscriptionStats R_filterContent R_toggleSource
  R_updateRecentActivity
  chrome_ok_set_active chrome_ok_set_colorScheme chrome_ok_set_themeIcon
  chrome_ok_navigated chrome_ok_opened chrome_ok_closed
  effects_ok_add_chart effects_ok_add_notification effects_ok_add_alert : along.
Local Hint Extern 3 (preserves R (_ ≫= _)) => apply preserves_bind; [|intros] : along.
Local Hint Extern 3 (preserves R (if _ then _ else _)) => apply preserves_if : along.
Local Hint Extern 3 (preserves R (match ?x with _ => _ end)) => destruct x : along.
Local Hint Extern 2 (preserves R (modify _)) =>
  apply preserves_modify; intros;
  first [ apply R_theme | apply R_section
        | apply R_chrome | apply R_effects ] : along.

Lemma preserves_updateThemeIcon : preserves R updateThemeIcon.
Proof. unfold updateThemeIcon. auto 10 with along. Qed.
Lemma preserves_showNotification message type :
  preserves R (showNotification message type).
Proof. unfold showNotification. auto 10 with along. Qed.
Lemma preserves_navigateToSection sectionId :
  preserves R (navigateToSection sectionId).
Proof.
  unfold navigateToSection. apply preserves_bind; [|intros; auto with along].
  apply preserves_modify. intros st.
  apply (R_chrome (navigated sectionId)), chrome_ok_navigated.
Qed.
Lemma preserves_openModal modalId : preserves R (openModal modalId).
Proof.
  unfold openModal. apply preserves_bind; [auto with along|].
  intros []; [|auto with along].
  apply preserves_modify. intros st.
  apply (R_chrome (opened modalId)), chrome_ok_opened.
Qed.
Lemma preserves_closeModal modalId : preserves R (closeModal modalId).
Proof.
  unfold closeModal. apply preserves_bind; [auto with along|].
  intros []; [|auto with along].
  apply preserves_modify. intros st.
  apply (R_chrome (closed modalId)), chrome_ok_closed.
Qed.
Lemma preserves_editSource sourceId : preserves R (editSource sourceId).
Proof. unfold editSource. auto 10 with along. Qed.

Local Hint Resolve preserves_updateThemeIcon preserves_showNotification
  preserves_navigateToSection preserves_openModal preserves_closeModal
  preserves_editSource : along.

Lemma preserves_loadDashboardData : preserves R loadDashboardData.
Proof. unfold loadDashboardData. auto 10 with along. Qed.
Lemma preserves_initializeMonetizationChart : preserves R initializeMonetizationChart.
Proof. unfold initializeMonetizationChart. auto 10 with along. Qed.
Lemma preserves_initializeThemeToggle : preserves R initializeThemeToggle.
Proof. unfold initializeThemeToggle. auto 10 with along. Qed.
Lemma preserves_themeToggleClick : preserves R themeToggleClick.
Proof. unfold themeToggleClick. auto 10 with along. Qed.
Lemma preserves_refreshScrapingLogs : preserves R refreshScrapingLogs.
Proof. unfold refreshScrapingLogs. auto 10 with along. Qed.
Lemma preserves_startScraping : preserves R startScraping.
Proof. unfold startScraping. auto 10 with along. Qed.
Lemma preserves_autoRefreshTick r1 r2 r3 currentTime :
  preserves R (autoRefreshTick r1 r2 r3 currentTime).
Proof. unfold autoRefreshTick. auto 10 with along. Qed.

Local Hint Resolve preserves_loadDashboardData
  preserves_initializeMonetizationChart preserves_initializeThemeToggle : along.

Lemma preserves_onDOMContentLoaded prefersDark :
  preserves R (onDOMContentLoaded prefersDark).
Proof. unfold onDOMContentLoaded, initializeNavigation. auto 30 with along. Qed.

Lemma preserves_perform a : preserves R (perform a).
Proof.
  destruct a; cbn [perform].
  - apply preserves_onDOMContentLoaded.
  - apply preserves_navigateToSection.
  - apply preserves_themeToggleClick.
  - apply preserves_openModal.
  - apply preserves_closeModal.
  - apply preserves_editSource.
  - apply R_toggleSource.
  - apply preserves_refreshScrapingLogs.
  - apply preserves_startScraping.
  - apply R_filterContent.
  - apply preserves_autoRefreshTick.
Qed.

End Along.

Lemma preserves_trace (R : AppState -> AppState -> Prop) :
  (forall st, R st st) ->
  (forall st1 st2 st3, R st1 st2 -> R st2 st3 -> R st1 st3) ->
  (forall a, preserves R (perform a)) ->
  forall acts st0, Forall (R st0) (trace acts st0).
Proof.
  intros R_refl R_trans Hstep acts.
  induction acts as [|a acts IH]; intros st0; cbn [trace].
  - repeat constructor. apply R_refl.
  - constructor; [apply R_refl|].
    eapply Forall_impl; [apply IH|]. cbn. intros s Hs.
    eapply R_trans; [apply (Hstep a st0) | exact Hs].
Qed.

(** ** Elements along a run *)

Lemma same_elements_refl st : same_elements st st.
Proof. repeat split; reflexivity. Qed.

Lemma same_elements_trans st1 st2 st3 :
  same_elements st1 st2 -> same_elements st2 st3 -> same_elements st1 st3.
Proof.
  intros (A1 & A2 & A3) (B1 & B2 & B3). repeat split; congruence.
Qed.

Lemma same_elements_of_keeps {A} (m : M A) :
  keeps (fun st => Dom.chrome (document st)) m -> preserves same_elements m.
Proof.
  intros H st. specialize (H st). cbn beta in H.
  unfold same_elements, chrome. rewrite H. repeat split; reflexivity.
Qed.

Lemma same_elements_hasElement i st st' :
  same_elements st st' -> hasElement i st' = hasElement i st.
Proof. intros (H & _). unfold hasElement. unfold chrome in H. rewrite H. reflexivity. Qed.

Ltac solve_writer :=
  first [ apply writer_loadServiceStatus | apply writer_loadRecentActivity
        | apply writer_updateSystemStatus | apply writer_loadContentSources
        | apply writer_loadContentLibrary
        | apply writer_loadDistributionPlatforms
        | apply writer_loadScrapingLogs | apply writer_loadSubscriptionStats
        | apply writer_filterContent | apply writer_toggleSource
        | apply writer_updateRecentActivity ]; reflexivity.

(** ** The page shows the data *)

Lemma exec_assignElement i f st :
  exec (assignElement i f) st
  = if hasElement i st then with_document (Dom.with_views f) st else st.
Proof.
  unfold exec, assignElement, getElementById, hasElement, mbind, M_bind, get,
    modify, throw, mret, M_ret.
  cbn. destruct (bool_decide _); reflexivity.
Qed.

(** Splits [rendered] in hypotheses and goal and closes each part. *)
Ltac views_kept :=
  unfold rendered, views, cards, sources, feed, library, platforms in *;
  cbn in *; intuition (try congruence).

Lemma stays_rendered_refl st : stays_rendered st st.
Proof. split; [apply same_elements_refl | auto]. Qed.

Lemma stays_rendered_trans st1 st2 st3 :
  stays_rendered st1 st2 -> stays_rendered st2 st3 -> stays_rendered st1 st3.
Proof.
  intros [E1 H1] [E2 H2]. split; [eapply same_elements_trans; eassumption|].
  intros Hs Hf Hr. apply H2.
  - rewrite (same_elements_hasElement _ _ _ E1). exact Hs.
  - rewrite (same_elements_hasElement _ _ _ E1). exact Hf.
  - apply H1; assumption.
Qed.

Lemma stays_rendered_loadServiceStatus : preserves stays_rendered loadServiceStatus.
Proof.
  intros st. split; [apply same_elements_of_keeps; solve_writer|].
  intros _ _ Hr. unfold loadServiceStatus.
  rewrite exec_bind_get, exec_assignElement.
  destruct (hasElement _ st); [|exact Hr]. views_kept.
Qed.

Lemma stays_rendered_loadRecentActivity : preserves stays_rendered loadRecentActivity.
Proof.
  intros st. split; [apply same_elements_of_keeps; solve_writer|].
  intros _ _ Hr. unfold loadRecentActivity.
  rewrite exec_bind_get, exec_assignElement.
  destruct (hasElement _ st); [|exact Hr]. views_kept.
Qed.

Lemma stays_rendered_updateSystemStatus : preserves stays_rendered updateSystemStatus.
Proof.
  intros st. split; [apply same_elements_of_keeps; solve_writer|].
  intros _ _ Hr. unfold updateSystemStatus.
  rewrite exec_bind_get. cbn zeta. rewrite exec_assignElement.
  destruct (hasElement _ st); [|exact Hr]. views_kept.
Qed.

Lemma stays_rendered_loadContentSources : preserves stays_rendered loadContentSources.
Proof.
  intros st. split; [apply same_elements_of_keeps; solve_writer|].
  intros _ _ Hr. unfold loadContentSources.
  rewrite exec_bind_get, exec_assignElement.
  destruct (hasElement _ st); [|exact Hr]. views_kept.
Qed.

Lemma stays_rendered_loadContentLibrary : preserves stays_rendered loadContentLibrary.
Proof.
  intros st. split; [apply same_elements_of_keeps; solve_writer|].
  intros _ _ Hr. unfold loadContentLibrary.
  rewrite exec_bind_get, exec_assignElement.
  destruct (hasElement _ st); [|exact Hr].
  unfold rendered, views, cards, sources, feed, library, platforms in *.
  cbn in *. rewrite map_map. intuition.
Qed.

Lemma stays_rendered_loadDistributionPlatforms :
  preserves stays_rendered loadDistributionPlatforms.
Proof.
  intros st. split; [apply same_elements_of_keeps; solve_writer|].
  intros _ _ Hr. unfold loadDistributionPlatforms.
  rewrite exec_bind_get, exec_assignElement.
  destruct (hasElement _ st); [|exact Hr]. views_kept.
Qed.

Lemma stays_rendered_loadScrapingLogs : preserves stays_rendered loadScrapingLogs.
Proof.
  intros st. split; [apply same_elements_of_keeps; solve_writer|].
  intros _ _ Hr. unfold loadScrapingLogs. rewrite exec_assignElement.
  destruct (hasElement _ st); [|exact Hr]. views_kept.
Qed.

Lemma stays_rendered_loadSubscriptionStats : preserves stays_rendered loadSubscriptionStats.
Proof.
  intros st. split; [apply same_elements_of_keeps; solve_writer|].
  intros _ _ Hr. unfold loadSubscriptionStats.
  rewrite exec_bind_get. cbn zeta. rewrite exec_assignElement.
  destruct (hasElement _ st); [|exact Hr]. views_kept.
Qed.

Lemma stays_rendered_filterContent searchValue filterValue :
  preserves stays_rendered (filterContent searchValue filterValue).
Proof.
  intros st. split; [apply same_elements_of_keeps; solve_writer|].
  intros _ _ Hr. rewrite exec_filterContent.
  unfold rendered, views, cards, sources, feed, library, platforms in *.
  cbn in *. rewrite map_map.
  destruct Hr as (H1 & H2 & H3 & H4 & H5 & H6).
  repeat split; assumption.
Qed.

Lemma stays_rendered_toggleSource sourceId :
  preserves stays_rendered (toggleSource sourceId).
Proof.
  intros st. split; [apply same_elements_of_keeps; solve_writer|].
  intros Hs _ Hr.
  destruct (list_find (fun s => Source.id s = sourceId) (sources st))
    as [[i s]|] eqn:Hfind.
  - unfold exec. rewrite (toggleSource_found _ _ _ _ Hfind).
    fold (exec loadContentSources
            (with_mockData (fun m => set_contentSources
               (<[ i := toggled s ]> (contentSources m)) m) st)).
    unfold loadContentSources. rewrite exec_bind_get, exec_assignElement.
    change (hasElement "sourcesTable" (with_mockData _ st))
      with (hasElement "sourcesTable" st).
    rewrite Hs. views_kept.
  - unfold exec. rewrite (toggleSource_not_found _ _ Hfind). exact Hr.
Qed.

Lemma stays_rendered_updateRecentActivity r1 r2 r3 currentTime :
  preserves stays_rendered (updateRecentActivity r1 r2 r3 currentTime).
Proof.
  intros st. split; [apply same_elements_of_keeps; solve_writer|].
  intros _ Hf Hr. unfold updateRecentActivity.
  rewrite exec_bind. cbn [modify]. rewrite exec_bind. cbn [modify].
  unfold loadRecentActivity. rewrite exec_bind_get, exec_assignElement.
  change (hasElement "activityFeed" (with_mockData _ (with_mockData _ st)))
    with (hasElement "activityFeed" st).
  rewrite Hf. views_kept.
Qed.

Lemma stays_rendered_perform a : preserves stays_rendered (perform a).
Proof.
  apply preserves_perform.
  - apply stays_rendered_refl.
  - apply stays_rendered_trans.
  - intros f st Hf. split; [exact (Hf (Dom.chrome (document st)))|].
    intros _ _ Hr. exact Hr.
  - intros f st Hf. split; [repeat split; reflexivity|].
    intros _ _ Hr. exact Hr.
  - intros v st. split; [repeat split; reflexivity|]. intros _ _ Hr. exact Hr.
  - intros v st. split; [repeat split; reflexivity|]. intros _ _ Hr. exact Hr.
  - apply stays_rendered_loadServiceStatus.
  - apply stays_rendered_loadRecentActivity.
  - apply stays_rendered_updateSystemStatus.
  - apply stays_rendered_loadContentSources.
  - apply stays_rendered_loadContentLibrary.
  - apply stays_rendered_loadDistributionPlatforms.
  - apply stays_rendered_loadScrapingLogs.
  - apply stays_rendered_loadSubscriptionStats.
  - apply stays_rendered_filterContent.
  - apply stays_rendered_toggleSource.
  - apply stays_rendered_updateRecentActivity.
Qed.

(** What is shown is what is stored.  On a page that has the sources
    table and the activity feed, if the service list, the activity feed,
    the status badge, the sources table, the content cards and the
    platform grid are the renderings of [mockData], they still are after
    every action and in every state of every run whose actions leave the
    class list of the status badge alone: each function that assigns into
    [mockData] renders what it assigned, and nothing else writes those
    views with anything but the rendering of the data. *)
Theorem page_stays_rendered (a : Action) (acts : list Action) (st : AppState) :
  spares_badge a = true ->
  Forall (fun a' => spares_badge a' = true) acts ->
  hasElement "sourcesTable" st = true ->
  hasElement "activityFeed" st = true ->
  rendered st ->
  rendered (step a st) /\ Forall rendered (trace acts st).
Proof.
  intros _ _ Hs Hf Hr. split.
  - apply (stays_rendered_perform a st); assumption.
  - eapply Forall_impl.
    + apply (preserves_trace stays_rendered stays_rendered_refl
               stays_rendered_trans stays_rendered_perform).
    + cbn beta. intros s [_ H]. apply H; assumption.
Qed.

(** ** Loading the page *)

Lemma assignElement_present i f st :
  hasElement i st = true ->
  assignElement i f st = Val tt (with_document (Dom.with_views f) st).
Proof.
  intros H. unfold assignElement, getElementById, mbind, M_bind, get, modify,
    mret, M_ret. unfold hasElement in H. cbn. unfold chrome in H. rewrite H. reflexivity.
Qed.

Lemma exec_bind_Val {A C} (m : M A) (f : A -> M C) st a st' :
  m st = Val a st' -> exec (m ≫= f) st = exec (f a) st'.
Proof. intros H. rewrite exec_bind, H. reflexivity. Qed.

Lemma stays_rendered_chrome f st :
  chrome_ok f -> stays_rendered st (with_document (Dom.with_chrome f) st).
Proof.
  intros Hf. split; [exact (Hf (Dom.chrome (document st)))|]. intros _ _ Hr. exact Hr.
Qed.
Lemma stays_rendered_effects f st :
  effects_ok f -> stays_rendered st (with_document (Dom.with_effects f) st).
Proof. intros Hf. split; [repeat split; reflexivity|]. intros _ _ Hr. exact Hr. Qed.
Lemma stays_rendered_theme v st : stays_rendered st (set_currentTheme v st).
Proof. split; [repeat split; reflexivity|]. intros _ _ Hr. exact Hr. Qed.
Lemma stays_rendered_section v st : stays_rendered st (set_currentSection v st).
Proof. split; [repeat split; reflexivity|]. intros _ _ Hr. exact Hr. Qed.

Ltac rendered_facts :=
  first [ apply stays_rendered_refl | apply stays_rendered_trans
        | apply stays_rendered_chrome | apply stays_rendered_effects
        | apply stays_rendered_theme | apply stays_rendered_section
        | apply stays_rendered_loadServiceStatus
        | apply stays_rendered_loadRecentActivity
        | apply stays_rendered_updateSystemStatus
        | apply stays_rendered_loadContentSources
        | apply stays_rendered_loadContentLibrary
        | apply stays_rendered_loadDistributionPlatforms
        | apply stays_rendered_loadScrapingLogs
        | apply stays_rendered_loadSubscriptionStats
        | apply stays_rendered_filterContent
        | apply stays_rendered_toggleSource
        | apply stays_rendered_updateRecentActivity ].

Lemma stays_rendered_afterLoads prefersDark :
  preserves stays_rendered (afterLoads prefersDark).
Proof.
  unfold afterLoads. apply preserves_bind; [rendered_facts | rendered_facts |].
  intros _. apply preserves_bind; [rendered_facts| |].
  - apply preserves_initializeMonetizationChart; rendered_facts.
  - intros _. destruct prefersDark; [|apply preserves_ret; rendered_facts].
    apply preserves_bind; [rendered_facts| |].
    + apply preserves_modify. intros st. rendered_facts.
    + intros _. apply preserves_bind; [rendered_facts| |].
      * apply preserves_modify. intros st. rendered_facts.
        apply chrome_ok_set_colorScheme.
      * intros _. apply preserves_updateThemeIcon; rendered_facts.
Qed.


Ltac load_present :=
  intros H; unfold mbind, M_bind, get; cbn zeta;
  rewrite assignElement_present by exact H; reflexivity.

Lemma loadServiceStatus_present st :
  hasElement "serviceList" st = true ->
  loadServiceStatus st
  = Val tt (with_document (Dom.with_views (Dom.set_serviceList
      (map renderService (services (systemStatus (mockData st)))))) st).
Proof. unfold loadServiceStatus. load_present. Qed.

Lemma loadRecentActivity_present st :
  hasElement "activityFeed" st = true ->
  loadRecentActivity st
  = Val tt (with_document (Dom.with_views (Dom.set_activityFeed
      (map renderActivity (feed st)))) st).
Proof. unfold loadRecentActivity. load_present. Qed.

Lemma updateSystemStatus_present st :
  hasElement "systemStatus" st = true ->
  updateSystemStatus st
  = Val tt (with_document (Dom.with_views (Dom.set_systemStatus
      (systemStatusView (overall (systemStatus (mockData st)))))) st).
Proof. unfold updateSystemStatus. load_present. Qed.

Lemma loadContentSources_present st :
  hasElement "sourcesTable" st = true ->
  loadContentSources st
  = Val tt (with_document (Dom.with_views (Dom.set_sourcesTable
      (map renderSource (sources st)))) st).
Proof. unfold loadContentSources. load_present. Qed.

Lemma loadContentLibrary_present st :
  hasElement "contentLibrary" st = true ->
  loadContentLibrary st
  = Val tt (with_document (Dom.with_views (Dom.set_contentLibrary
      (map renderContent (library st)))) st).
Proof. unfold loadContentLibrary. load_present. Qed.

Lemma loadDistributionPlatforms_present st :
  hasElement "platformsGrid" st = true ->
  loadDistributionPlatforms st
  = Val tt (with_document (Dom.with_views (Dom.set_platformsGrid
      (map renderPlatform (platforms st)))) st).
Proof. unfold loadDistributionPlatforms. load_present. Qed.

Lemma rendered_after_load prefersDark st :
  Forall (fun i => hasElement i st = true) loadIds ->
  rendered (exec (onDOMContentLoaded prefersDark) st).
Proof.
  intros H. unfold loadIds in H.
  repeat (apply Forall_cons in H as [? H]).
  unfold onDOMContentLoaded, initializeNavigation.
  rewrite exec_bind. cbn [mret M_ret].
  assert (E0 : initializeThemeToggle st = Val tt st).
  { unfold initializeThemeToggle, getElementById, mbind, M_bind, get, mret, M_ret.
    cbn. unfold hasElement, chrome in *. rewrite H0. reflexivity. }
  rewrite (exec_bind_Val _ _ _ _ _ E0).
  unfold loadDashboardData.
  rewrite exec_bind.
  unfold mbind at 1, M_bind at 1.
  rewrite (loadServiceStatus_present st H1).
  unfold mbind at 1, M_bind at 1.
  rewrite loadRecentActivity_present by exact H2.
  rewrite updateSystemStatus_present by exact H3.
  erewrite exec_bind_Val by (apply loadContentSources_present; exact H4).
  erewrite exec_bind_Val by (apply loadContentLibrary_present; exact H5).
  erewrite exec_bind_Val by (apply loadDistributionPlatforms_present; exact H6).
  match goal with |- rendered (exec ?m ?s) =>
    apply (stays_rendered_afterLoads prefersDark s) end.
  - exact H4.
  - exact H2.
  - unfold rendered, views, cards, sources, feed, library, platforms.
    cbn. rewrite map_map. repeat split; reflexivity.
Qed.

(** Loading fills the page from the data.  On a document that has the
    theme toggle and the six containers, when the load handler has run,
    returned or thrown, the service list, the activity feed, the status
    badge, the sources table, the content cards and the platform grid are
    the renderings of [mockData], and [mockData] is what it was. *)
Theorem page_load_renders (prefersDark : bool) (st : AppState) :
  Forall (fun i => hasElement i st = true) loadIds ->
  rendered (exec (onDOMContentLoaded prefersDark) st)
  /\ mockData (exec (onDOMContentLoaded prefersDark) st) = mockData st.
Proof.
  intros H. split; [apply rendered_after_load, H|].
  apply (keeps_onDOMContentLoaded mockData); reflexivity.
Qed.

Lemma page_load_renders_witness :
  Forall (fun i => hasElement i initialState = true) loadIds
  /\ (rendered (exec (onDOMContentLoaded true) initialState)
      /\ mockData (exec (onDOMContentLoaded true) initialState)
         = mockData initialState).
Proof.
  assert (H : Forall (fun i => hasElement i initialState = true) loadIds)
    by (repeat constructor).
  split; [exact H|]. exact (page_load_renders true initialState H).
Defined.

Lemma page_stays_rendered_witness :
  let st := loadedPage false in
  let acts := [ ToggleSource 3; AutoRefresh 0 0 0 "14:40"; ClickNav "library";
                FilterContent "fda" ""; OpenModal "addSourceModal";
                ToggleSource 1 ] in
  spares_badge (ToggleSource 3) = true
  /\ Forall (fun a' => spares_badge a' = true) acts
  /\ hasElement "sourcesTable" st = true
  /\ hasElement "activityFeed" st = true
  /\ rendered st
  /\ (rendered (step (ToggleSource 3) st) /\ Forall rendered (trace acts st)).
Proof.
  cbn zeta.
  assert (Hr : rendered (loadedPage false)).
  { apply rendered_after_load. repeat constructor. }
  assert (Ha : Forall (fun a' => spares_badge a' = true)
                 [ ToggleSource 3; AutoRefresh 0 0 0 "14:40"; ClickNav "library";
                   FilterContent "fda" ""; OpenModal "addSourceModal";
                   ToggleSource 1 ])
    by (repeat constructor).
  split; [reflexivity|]. split; [exact Ha|].
  split; [reflexivity|]. split; [reflexivity|]. split; [exact Hr|].
  exact (page_stays_rendered (ToggleSource 3)
           [ ToggleSource 3; AutoRefresh 0 0 0 "14:40"; ClickNav "library";
             FilterContent "fda" ""; OpenModal "addSourceModal";
             ToggleSource 1 ]
           (loadedPage false) eq_refl Ha eq_refl eq_refl Hr).
Defined.

(** Without the theme toggle nothing is rendered.  On a document that
    lacks the element [themeToggle] the load handler throws a [TypeError]
    at its second step and leaves the whole state as it found it: no view
    is filled, whatever other elements exist. *)
Theorem page_load_without_themeToggle (prefersDark : bool) (st : AppState) :
  hasElement "themeToggle" st = false ->
  fails_with "TypeError" (onDOMContentLoaded prefersDark) st
  /\ exec (onDOMContentLoaded prefersDark) st = st.
Proof.
  intros H.
  assert (E : onDOMContentLoaded prefersDark st = Exn "TypeError" st).
  { unfold onDOMContentLoaded, initializeNavigation, initializeThemeToggle,
      getElementById, mbind, M_bind, get, throw, mret, M_ret.
    cbn. unfold hasElement, chrome in H. rewrite H. reflexivity. }
  split; [exists st; exact E|]. unfold exec. rewrite E. reflexivity.
Qed.

Lemma page_load_without_themeToggle_witness :
  hasElement "themeToggle" (without_element "themeToggle" initialState) = false
  /\ (fails_with "TypeError" (onDOMContentLoaded false)
        (without_element "themeToggle" initialState)
      /\ exec (onDOMContentLoaded false) (without_element "themeToggle" initialState)
         = without_element "themeToggle" initialState).
Proof.
  split; [reflexivity|].
  exact (page_load_without_themeToggle false
           (without_element "themeToggle" initialState) eq_refl).
Defined.
